(** * Injectory: the injection engine (src/injectory/process.cpp, module.hpp)

    A shallow embedding of [Module] and [Process].  Every call that leaves
    the two source files (a Win32 / native API call, or a helper of the
    repository that lives in another file) is recorded in a trace and
    answered by an oracle [OS], which may look at the calls made so far.
    C++ exceptions are the left summand of the result; destructors of
    scoped owners run on every exit of their scope. *)

From Stdlib Require Import ZArith QArith List String Ascii Bool Lia.
Import ListNotations.
Open Scope string_scope.
Open Scope list_scope.
Open Scope Z_scope.

(** ** Machine integers *)

(** The injector is built for x86 or for x64. *)
Inductive Arch := X86 | X64.

Definition ptr_bits (a : Arch) : Z :=
  match a with X86 => 32 | X64 => 64 end.

(** [DWORD_PTR] / [SIZE_T] arithmetic wraps at the pointer width. *)
Definition ptr_wrap (a : Arch) (z : Z) : Z := z mod 2 ^ ptr_bits a.

(** A [BOOL] holds when it is not zero. *)
Definition BOOL_true (b : Z) : bool := negb (b =? 0).

(** [sizeof(wchar_t)] with the Windows tool chain. *)
Definition sizeof_wchar_t : Z := 2.

(** [wcslen(s.c_str())]: the buffer is the characters of [s] followed by a
    terminator; the count stops at the first zero character. *)
Fixpoint wcslen (s : string) : Z :=
  match s with
  | EmptyString => 0
  | String c r => if Ascii.eqb c Ascii.zero then 0 else 1 + wcslen r
  end.

(** ** Data *)

Record Process := mkProcess { id : Z; handle : Z }.

(** Modelled from the spec: [Process] comparison is declared in process.hpp;
    "two Process values are equal iff their process ids match". *)
Definition Process_eqb (p q : Process) : bool := id p =? id q.

(** Modelled from the spec: the default-constructed [Process()] of
    process.hpp, holding the null sentinel. *)
Definition Process_default : Process := mkProcess 0 0.

Record Thread := mkThread { tid : Z; thandle : Z }.

(** [Library] (declared elsewhere): its path and the result of its
    [ntFilename()] accessor. *)
Record Library := mkLibrary { path : string; ntFilename : string }.

(** A [Module] is a [Handle<HINSTANCE__>] with its owning process; the only
    deleter the source ever attaches is [FreeLibrary]. *)
Record Module := mkModule {
  m_handle : Z;
  m_process : Process;
  m_free : bool
}.

(** ** Exceptions: a class and the attached error infos, in order *)

Inductive ExClass :=
| ex_injection
| ex_get_module_handle
| ex_suspend_resume_process
| ex_other (what : string).

Inductive ErrorInfo :=
| e_text (s : string)
| e_api_function (s : string)
| e_last_error (code : Z)
| e_pid (pid : Z)
| e_module (p : string)
| e_nt_status (status : Z)
| e_process (p : Process).

Record Exn := mkExn { ex_class : ExClass; ex_infos : list ErrorInfo }.

Definition ex (c : ExClass) : Exn := mkExn c [].
Definition attach (e : Exn) (i : ErrorInfo) : Exn :=
  mkExn (ex_class e) (ex_infos e ++ [i]).
Notation "e << i" := (attach e i) (at level 50, left associativity).

(** ** Calls that leave the two source files *)

(** [SizeOfImage / 1024.0]: a [DWORD] divided by a power of two is exact
    in a [double], so the value handed to [wprintf] is this rational, in
    lowest terms. *)
Definition kilobytes (size : Z) : Q := Qred (size # 1024).
Arguments kilobytes : simpl never.

Record Report := mkReport {
  r_name : string; r_pid : Z; r_base : Z; r_entry : Z;
  r_size : Q; r_checksum : Z; r_exit : Z
}.

Inductive Call :=
| GetModuleHandleW (name : string)
| GetLastError
| LoadLibraryExW (name : string) (flags : Z)
| FreeLibrary (h : Z)
| GetProcAddress (h : Z) (name : string)
| CallNtProc (f : Z) (h : Z)
| CallIsWow64 (f : Z) (h : Z)
| VirtualAllocEx (h addr size type protect : Z)
| VirtualFreeEx (h addr size type : Z)
| WriteProcessMemory (h addr : Z) (buf : string) (size : Z)
| FlushInstructionCache (h addr size : Z)
| ReadProcessMemory (h addr size : Z)
| wprintf (r : Report)
| Module_path (m : Module)
| ModuleInjectedW (h : Z) (nt : string)
| MyGetSystemInfo
| createRemoteThread (h attr stack start arg flags : Z)
| Thread_setPriority (t : Thread) (prio : Z)
| Thread_hideFromDebugger (t : Thread)
| Thread_waitForTermination (t : Thread).

Definition Trace := list Call.

(** The headers read back from the target after a load. *)
Record DosHeader := mkDos { e_lfanew : Z }.
Record NtHeaders := mkNt {
  AddressOfEntryPoint : Z; SizeOfImage : Z; CheckSum : Z
}.

(** The environment.  Each answer may depend on the calls made before it.
    A [BOOL], handle or address is a [Z], zero being FALSE / NULL.  The
    helpers of the repository that are defined outside the two files are
    answered here too and may raise. *)
Record OS := mkOS {
  arch : Arch;
  current : Process;
  os_GetModuleHandleW : Trace -> string -> Z;
  os_GetLastError : Trace -> Z;
  os_LoadLibraryExW : Trace -> string -> Z -> Z;
  os_GetProcAddress : Trace -> Z -> string -> Z;
  os_CallNtProc : Trace -> Z -> Z -> Z;
  os_CallIsWow64 : Trace -> Z -> Z -> Z * Z;
  os_VirtualAllocEx : Trace -> Z -> Z -> Z -> Z -> Z -> Z;
  os_WriteProcessMemory : Trace -> Z -> Z -> string -> Z -> Z * Z;
  os_FlushInstructionCache : Trace -> Z -> Z -> Z -> Z;
  os_ReadDosHeader : Trace -> Z -> Z -> Z -> Z * Z * DosHeader;
  os_ReadNtHeaders : Trace -> Z -> Z -> Z -> Z * Z * NtHeaders;
  ext_Module_path : Trace -> Module -> Exn + string;
  ext_ModuleInjectedW : Trace -> Z -> string -> Z;
  ext_MyGetSystemInfo : Trace -> Z;
  ext_createRemoteThread : Trace -> Z -> Z -> Z -> Z -> Z -> Z -> Exn + Thread;
  ext_setPriority : Trace -> Thread -> Z -> Exn + unit;
  ext_hideFromDebugger : Trace -> Thread -> Exn + unit;
  ext_waitForTermination : Trace -> Thread -> Exn + Z
}.

(** ** The monad: history in, result and the calls made out *)

Definition M (A : Type) : Type := Trace -> (Exn + A) * Trace.

Definition ret {A} (a : A) : M A := fun _ => (inr a, []).

Definition throw {A} (e : Exn) : M A := fun _ => (inl e, []).

Definition bind {A B} (m : M A) (k : A -> M B) : M B :=
  fun t =>
    match m t with
    | (inl e, tr) => (inl e, tr)
    | (inr a, tr) =>
        match k a (t ++ tr) with
        | (r, tr') => (r, tr ++ tr')
        end
    end.

Notation "x <- m ;; k" := (bind m (fun x => k))
  (at level 61, m at next level, right associativity).
Notation "' pat <- m ;; k" :=
  (bind m (fun x => match x with pat => k end))
  (at level 61, pat pattern, m at next level, right associativity).
Notation "m ;;; k" := (bind m (fun _ => k))
  (at level 61, right associativity).

(** A call whose answer is a plain value. *)
Definition sys {A} (c : Call) (answer : Trace -> A) : M A :=
  fun t => (inr (answer t), [c]).

(** A call into a helper that may raise. *)
Definition ext {A} (c : Call) (answer : Trace -> Exn + A) : M A :=
  fun t => (answer t, [c]).

(** A scoped owner: [release] runs when [body] is left, normally or by an
    exception (the caller catches it, so the stack is unwound); a deleter
    is an API call and cannot raise. *)
Definition scoped {A} (release : Trace) (body : M A) : M A :=
  fun t =>
    match body t with
    | (r, tr) => (r, tr ++ release)
    end.

Definition run {A} (m : M A) : (Exn + A) * Trace := m [].

(** ** module.hpp *)

Definition DONT_RESOLVE_DLL_REFERENCES : Z := 1.

(** [Module::Module()] *)
Definition Module_null : Module := mkModule 0 Process_default false.

(** Destructor of a [Module]: the deleter, when one is attached. *)
Definition Module_release (m : Module) : Trace :=
  if m_free m then [FreeLibrary (m_handle m)] else [].

Section WithOS.

Variable os : OS.

(** [Module::Module(const fs::path& moduleName)] *)
Definition Module_named (moduleName : string) : M Module :=
  h <- sys (GetModuleHandleW moduleName)
           (fun t => os_GetModuleHandleW os t moduleName) ;;
  if h =? 0 then
    errcode <- sys GetLastError (os_GetLastError os) ;;
    throw (ex ex_get_module_handle
             << e_api_function "GetModuleHandle"
             << e_text ("could not get handle to module '" ++ moduleName ++ "'")%string
             << e_last_error errcode)
  else ret (mkModule h (current os) false).

(** [Module::load] *)
Definition load (moduleName : string) (flags : Z)
    (freeOnDestruction throwing : bool) : M Module :=
  handle_ <- sys (LoadLibraryExW moduleName flags)
                 (fun t => os_LoadLibraryExW os t moduleName flags) ;;
  if handle_ =? 0 then
    if negb throwing then ret Module_null
    else
      errcode <- sys GetLastError (os_GetLastError os) ;;
      throw (ex ex_get_module_handle
               << e_api_function "LoadLibraryEx"
               << e_text ("could not load module '" ++ moduleName ++ "' locally")%string
               << e_last_error errcode)
  else
    ret (mkModule handle_ (current os) freeOnDestruction).

(** The [else] branch of [Module::getProcAddress]: the module belongs to
    the current process. *)
Definition getProcAddress_direct (m : Module) (procName : string)
    (throwing : bool) : M Z :=
  procAddress <- sys (GetProcAddress (m_handle m) procName)
                     (fun t => os_GetProcAddress os t (m_handle m) procName) ;;
  if procAddress =? 0 then
    if negb throwing then ret 0
    else
      errcode <- sys GetLastError (os_GetLastError os) ;;
      throw (ex ex_injection
               << e_api_function "GetProcAddress"
               << e_text ("could not get the address of '" ++ procName ++ "'")%string
               << e_last_error errcode)
  else ret procAddress.

(** The [if] branch of [Module::getProcAddress]: the module belongs to
    another process.  The nested [localModule.getProcAddress(procName)]
    leaves [throwing] at its default [true]; its receiver comes out of
    [load], hence is owned by [Process::current], and the nested call runs
    the direct branch ([getProcAddress_nested] below keeps the test). *)
Definition getProcAddress_nested (localModule : Module) (procName : string)
    : M Z :=
  if negb (Process_eqb (m_process localModule) (current os)) then
    throw (ex (ex_other "unreachable"))
  else getProcAddress_direct localModule procName true.

Definition getProcAddress_probe (m : Module) (procName : string)
    (throwing : bool) : M Z :=
  p <- ext (Module_path m) (fun t => ext_Module_path os t m) ;;
  localModule <- load p DONT_RESOLVE_DLL_REFERENCES true throwing ;;
  scoped (Module_release localModule)
    (if negb throwing && (m_handle localModule =? 0) then ret 0
     else
       a <- getProcAddress_nested localModule procName ;;
       let funcOffset := ptr_wrap (arch os) (a - m_handle localModule) in
       ret (ptr_wrap (arch os) (m_handle m + funcOffset))).

(** [Module::getProcAddress] *)
Definition getProcAddress (m : Module) (procName : string)
    (throwing : bool) : M Z :=
  if negb (Process_eqb (m_process m) (current os))
  then getProcAddress_probe m procName throwing
  else getProcAddress_direct m procName throwing.

(** [ModuleNtdll::NT_SUCCESS]; process.cpp uses the macro of the same name
    and meaning. *)
Definition NT_SUCCESS (status : Z) : bool := status >=? 0.

(** [ModuleKernel32]: the module and the two exports bound when it is
    constructed.  A [std::function] built from a null pointer is empty. *)
Record ModuleKernel32 := mkKernel32 {
  k_module : Module;
  isWow64Process_ : Z;
  getNativeSystemInfo_ : Z
}.

(** [ModuleKernel32::ModuleKernel32()] *)
Definition ModuleKernel32_new : M ModuleKernel32 :=
  m <- Module_named "kernel32" ;;
  f <- getProcAddress m "IsWow64Process" true ;;
  g <- getProcAddress m "GetNativeSystemInfo" false ;;
  ret (mkKernel32 m f g).

(** [ModuleKernel32::isWow64Process] *)
Definition isWow64Process (k : ModuleKernel32) (proc : Process) : M bool :=
  if isWow64Process_ k =? 0 then
    throw (ex (ex_other "std::bad_function_call"))
  else
    ' (r, isWow64) <- sys (CallIsWow64 (isWow64Process_ k) (handle proc))
        (fun t => os_CallIsWow64 os t (isWow64Process_ k) (handle proc)) ;;
    if r =? 0 then
      errcode <- sys GetLastError (os_GetLastError os) ;;
      throw (ex ex_injection
               << e_api_function "IsWow64Process"
               << e_process proc
               << e_last_error errcode)
    else ret (isWow64 =? 0).

(** ** process.cpp *)

Definition MEM_COMMIT : Z := 4096.
Definition MEM_RELEASE : Z := 32768.
Definition PAGE_READWRITE : Z := 4.
Definition THREAD_PRIORITY_TIME_CRITICAL : Z := 15.
Definition PROCESSOR_ARCHITECTURE_AMD64 : Z := 9.
Definition PROCESSOR_ARCHITECTURE_INTEL : Z := 0.
Definition sizeof_IMAGE_DOS_HEADER : Z := 64.
Definition sizeof_IMAGE_NT_HEADERS : Z :=
  match arch os with X86 => 248 | X64 => 264 end.

(** [Process::suspend] *)
Definition suspend (p : Process) (_suspend : bool) : M unit :=
  ntDll <- Module_named "ntdll" ;;
  suspend_resume <-
    (if _suspend then getProcAddress ntDll "NtSuspendProcess" true
     else getProcAddress ntDll "NtResumeProcess" true) ;;
  ntStatus <- sys (CallNtProc suspend_resume (handle p))
                  (fun t => os_CallNtProc os t suspend_resume (handle p)) ;;
  if negb (NT_SUCCESS ntStatus) then
    throw (ex ex_suspend_resume_process << e_nt_status ntStatus)
  else ret tt.

(** [SIZE_T LibPathLen = (wcslen(lib.path.c_str()) + 1) * sizeof(wchar_t)] *)
Definition LibPathLen (lib : Library) : Z :=
  ptr_wrap (arch os) ((wcslen (path lib) + 1) * sizeof_wchar_t).

(** The part of [Process::inject] that follows the wait for the remote
    thread (lines 90 to 125). *)
Definition inject_verify (p : Process) (lib : Library) (verbose : bool)
    (exitCode : Z) : M unit :=
  lpInjectedModule <- sys (ModuleInjectedW (handle p) (ntFilename lib))
      (fun t => ext_ModuleInjectedW os t (handle p) (ntFilename lib)) ;;
  if negb (lpInjectedModule =? 0) then
    ' (ok, NumBytesRead, dos_header) <-
        sys (ReadProcessMemory (handle p) lpInjectedModule sizeof_IMAGE_DOS_HEADER)
            (fun t => os_ReadDosHeader os t (handle p) lpInjectedModule
                        sizeof_IMAGE_DOS_HEADER) ;;
    if (ok =? 0) || negb (NumBytesRead =? sizeof_IMAGE_DOS_HEADER) then
      throw (ex ex_injection << e_text "could not read memory in remote process")
    else
      let lpNtHeaderAddress :=
        ptr_wrap (arch os) (lpInjectedModule + e_lfanew dos_header) in
      ' (ok, NumBytesRead, nt_header) <-
          sys (ReadProcessMemory (handle p) lpNtHeaderAddress sizeof_IMAGE_NT_HEADERS)
              (fun t => os_ReadNtHeaders os t (handle p) lpNtHeaderAddress
                          sizeof_IMAGE_NT_HEADERS) ;;
      if (ok =? 0) || negb (NumBytesRead =? sizeof_IMAGE_NT_HEADERS) then
        throw (ex ex_injection << e_text "could not read memory in remote process")
      else if verbose then
        sys (wprintf (mkReport (ntFilename lib) (id p) lpInjectedModule
               (ptr_wrap (arch os)
                  (lpInjectedModule + AddressOfEntryPoint nt_header))
               (kilobytes (SizeOfImage nt_header)) (CheckSum nt_header)
               exitCode))
            (fun _ => tt)
      else ret tt
  else if exitCode =? 0 then
    throw (ex ex_injection << e_text "unknown error (LoadLibraryW)")
  else ret tt.

(** [Process::inject].  [lpLibFileRemote] is a [shared_ptr<void>] built from
    the answer of [VirtualAllocEx] and the deleter
    [bind(VirtualFreeEx, handle(), _1, 0, MEM_RELEASE)]; it is built before
    the null test of line 73, and a [shared_ptr] built from a pointer and a
    deleter runs the deleter on that pointer when its last owner goes, a
    null pointer included.  The handle of [loadLibraryThread] is released
    by [Thread], outside these files, and is not traced. *)
Definition inject (p : Process) (lib : Library) (verbose : bool) : M unit :=
  kernel32dll <- Module_named "kernel32" ;;
  loadLibrary <- getProcAddress kernel32dll "LoadLibraryW" true ;;
  present <- sys (ModuleInjectedW (handle p) (ntFilename lib))
      (fun t => ext_ModuleInjectedW os t (handle p) (ntFilename lib)) ;;
  if negb (present =? 0) then
    throw (ex ex_injection << e_text "module already in process"
             << e_module (path lib) << e_pid (id p))
  else
    lpLibFileRemote <-
      sys (VirtualAllocEx (handle p) 0 (LibPathLen lib) MEM_COMMIT PAGE_READWRITE)
          (fun t => os_VirtualAllocEx os t (handle p) 0 (LibPathLen lib)
                      MEM_COMMIT PAGE_READWRITE) ;;
    scoped [VirtualFreeEx (handle p) lpLibFileRemote 0 MEM_RELEASE]
      (if lpLibFileRemote =? 0 then
         throw (ex ex_injection
                  << e_text "could not allocate memory in remote process")
       else
         ' (ok, NumBytesWritten) <-
             sys (WriteProcessMemory (handle p) lpLibFileRemote (path lib)
                    (LibPathLen lib))
                 (fun t => os_WriteProcessMemory os t (handle p) lpLibFileRemote
                             (path lib) (LibPathLen lib)) ;;
         if (ok =? 0) || negb (NumBytesWritten =? LibPathLen lib) then
           throw (ex ex_injection
                    << e_text "could not write to memory in remote process")
         else
           flushed <-
             sys (FlushInstructionCache (handle p) lpLibFileRemote (LibPathLen lib))
                 (fun t => os_FlushInstructionCache os t (handle p)
                             lpLibFileRemote (LibPathLen lib)) ;;
           if flushed =? 0 then
             throw (ex ex_injection
                      << e_text "could not flush instruction cache")
           else
             loadLibraryThread <-
               ext (createRemoteThread (handle p) 0 0 loadLibrary lpLibFileRemote 0)
                   (fun t => ext_createRemoteThread os t (handle p) 0 0
                               loadLibrary lpLibFileRemote 0) ;;
             ext (Thread_setPriority loadLibraryThread THREAD_PRIORITY_TIME_CRITICAL)
                 (fun t => ext_setPriority os t loadLibraryThread
                             THREAD_PRIORITY_TIME_CRITICAL) ;;;
             ext (Thread_hideFromDebugger loadLibraryThread)
                 (fun t => ext_hideFromDebugger os t loadLibraryThread) ;;;
             exitCode <-
               ext (Thread_waitForTermination loadLibraryThread)
                   (fun t => ext_waitForTermination os t loadLibraryThread) ;;
             inject_verify p lib verbose exitCode).

(** [Process::is64bit] *)
Definition is64bit (p : Process) : M bool :=
  wProcessorArchitecture <- sys MyGetSystemInfo (ext_MyGetSystemInfo os) ;;
  if wProcessorArchitecture =? PROCESSOR_ARCHITECTURE_AMD64 then
    kernel32dll <- Module_named "kernel32" ;;
    _IsWow64Process <- getProcAddress kernel32dll "IsWow64Process" true ;;
    ' (r, bIsWow64) <- sys (CallIsWow64 _IsWow64Process (handle p))
        (fun t => os_CallIsWow64 os t _IsWow64Process (handle p)) ;;
    if r =? 0 then
      throw (ex ex_injection << e_text "IsWow64Process failed")
    else ret (if negb (bIsWow64 =? 0) then false else true)
  else if wProcessorArchitecture =? PROCESSOR_ARCHITECTURE_INTEL then
    ret false
  else
    throw (ex ex_injection
             << e_text "failed to determine whether x86 or x64"
             << e_pid (id p)).

End WithOS.

(** ** Reading a run *)

Definition result {A} (x : (Exn + A) * Trace) : Exn + A := fst x.
Definition trace {A} (x : (Exn + A) * Trace) : Trace := snd x.

Definition is_alloc (c : Call) : bool :=
  match c with VirtualAllocEx _ _ _ _ _ => true | _ => false end.
Definition is_free (c : Call) : bool :=
  match c with VirtualFreeEx _ _ _ _ => true | _ => false end.
Definition is_thread_create (c : Call) : bool :=
  match c with createRemoteThread _ _ _ _ _ _ => true | _ => false end.
Definition is_wait (c : Call) : bool :=
  match c with Thread_waitForTermination _ => true | _ => false end.
Definition is_write (c : Call) : bool :=
  match c with WriteProcessMemory _ _ _ _ => true | _ => false end.
Definition is_flush (c : Call) : bool :=
  match c with FlushInstructionCache _ _ _ => true | _ => false end.
Definition is_presence_check (c : Call) : bool :=
  match c with ModuleInjectedW _ _ => true | _ => false end.
Definition is_probe_load (c : Call) : bool :=
  match c with LoadLibraryExW _ _ | Module_path _ => true | _ => false end.
Definition is_report (c : Call) : bool :=
  match c with wprintf _ => true | _ => false end.
Definition is_resolution (c : Call) : bool :=
  match c with GetProcAddress _ name => String.eqb name "LoadLibraryW" | _ => false end.

Definition count (P : Call -> bool) (tr : Trace) : nat :=
  List.length (filter P tr).

(** Position of the first call satisfying [P]. *)
Fixpoint index_of (P : Call -> bool) (tr : Trace) : option nat :=
  match tr with
  | [] => None
  | c :: r => if P c then Some O else option_map S (index_of P r)
  end.

(** Cut a trace at its first call satisfying [P]. *)
Fixpoint split_first (P : Call -> bool) (tr : Trace)
    : option (Trace * Call * Trace) :=
  match tr with
  | [] => None
  | c :: r =>
      if P c then Some ([], c, r)
      else match split_first P r with
           | Some (pre, x, post) => Some (c :: pre, x, post)
           | None => None
           end
  end.

(** Allocation requests of a run that the environment granted; [hist] is
    the history before [tr]. *)
Fixpoint successful_allocations (os : OS) (hist tr : Trace) : nat :=
  match tr with
  | [] => O
  | c :: r =>
      let granted :=
        match c with
        | VirtualAllocEx h a s ty pr =>
            if os_VirtualAllocEx os hist h a s ty pr =? 0 then O else 1%nat
        | _ => O
        end in
      (granted + successful_allocations os (hist ++ [c]) r)%nat
  end.

(** ** The failures of the protocol, as the source raises them *)

Definition ModuleLookupFailure (moduleName : string) (errcode : Z) : Exn :=
  ex ex_get_module_handle
    << e_api_function "GetModuleHandle"
    << e_text ("could not get handle to module '" ++ moduleName ++ "'")%string
    << e_last_error errcode.

Definition ProcAddressResolutionFailure (procName : string) (errcode : Z) : Exn :=
  ex ex_injection
    << e_api_function "GetProcAddress"
    << e_text ("could not get the address of '" ++ procName ++ "'")%string
    << e_last_error errcode.

Definition AlreadyInjectedFailure (lib : Library) (p : Process) : Exn :=
  ex ex_injection << e_text "module already in process"
    << e_module (path lib) << e_pid (id p).

Definition RemoteAllocFailure : Exn :=
  ex ex_injection << e_text "could not allocate memory in remote process".

Definition RemoteWriteFailure : Exn :=
  ex ex_injection << e_text "could not write to memory in remote process".

Definition CacheFlushFailure : Exn :=
  ex ex_injection << e_text "could not flush instruction cache".

Definition InjectionFailure : Exn :=
  ex ex_injection << e_text "unknown error (LoadLibraryW)".

Definition SuspendResumeFailure (ntStatus : Z) : Exn :=
  ex ex_suspend_resume_process << e_nt_status ntStatus.

Definition ArchitectureDetectionFailure_query : Exn :=
  ex ex_injection << e_text "IsWow64Process failed".

Definition ArchitectureDetectionFailure_unknown (p : Process) : Exn :=
  ex ex_injection << e_text "failed to determine whether x86 or x64"
    << e_pid (id p).

Definition Wow64QueryFailure (proc : Process) (errcode : Z) : Exn :=
  ex ex_injection << e_api_function "IsWow64Process"
    << e_process proc << e_last_error errcode.

(** ** Vocabulary of the statements *)

(** The library is in the module list of the target whenever it is looked
    for. *)
Definition already_loaded (os : OS) (p : Process) (lib : Library) : Prop :=
  forall t, ext_ModuleInjectedW os t (handle p) (ntFilename lib) <> 0.

(** Standing assumption on the process of the injector: after the calls
    [t], the system library [dll] is found at [h] and its export [name] at
    [f]. *)
Definition export_found (os : OS) (t : Trace) (dll name : string) (h f : Z)
    : Prop :=
  os_GetModuleHandleW os t dll = h /\ h <> 0 /\
  os_GetProcAddress os (t ++ [GetModuleHandleW dll]) h name = f /\ f <> 0.

(** The injector finds its own kernel32 at [h] and [LoadLibraryW] at [a]. *)
Definition loader_resolved (os : OS) (h a : Z) : Prop :=
  export_found os [] "kernel32" "LoadLibraryW" h a.

(** The order C3 describes: the loader export is resolved through a probe
    copy, after the cache flush and before the thread is created. *)
Definition resolved_as_step5 (tr : Trace) : Prop :=
  existsb is_probe_load tr = true /\
  exists i j k,
    index_of is_flush tr = Some i /\
    index_of is_resolution tr = Some j /\
    index_of is_thread_create tr = Some k /\
    (i < j < k)%nat.

(** The image mapped at [base] exports [name] at the image-relative offset
    [rva], and the lookup finds it. *)
Definition exports_at (os : OS) (base : Z) (name : string) (rva : Z) : Prop :=
  forall t,
    os_GetProcAddress os t base name = ptr_wrap (arch os) (base + rva) /\
    ptr_wrap (arch os) (base + rva) <> 0.

(** The same module, looked at as if [owner] had loaded it. *)
Definition as_remote (m : Module) (owner : Process) : Module :=
  mkModule (m_handle m) owner (m_free m).

(** ** Concrete environments *)

(** A scripted environment: one answer per kind of call; the presence
    check answers [sc_present_after] once a remote thread has been waited
    for and [sc_present_before] until then. *)
Record Scenario := mkScenario {
  sc_module : string -> Z;
  sc_export : Z -> string -> Z;
  sc_probe : Z;
  sc_present_before : Z;
  sc_alloc : Z;
  sc_write : Z -> Z * Z;
  sc_flush : Z;
  sc_exit : Z;
  sc_present_after : Z;
  sc_sysarch : Z;
  sc_wow64 : Z * Z;
  sc_ntstatus : Z
}.

Definition world (sc : Scenario) : OS :=
  mkOS X64 (mkProcess 4242 (-1))
    (fun _ name => sc_module sc name)
    (fun _ => 127)
    (fun _ _ _ => sc_probe sc)
    (fun _ h name => sc_export sc h name)
    (fun _ _ _ => sc_ntstatus sc)
    (fun _ _ _ => sc_wow64 sc)
    (fun _ _ _ _ _ _ => sc_alloc sc)
    (fun _ _ _ _ size => sc_write sc size)
    (fun _ _ _ _ => sc_flush sc)
    (fun _ _ _ size => (1, size, mkDos 232))
    (fun _ _ _ size => (1, size, mkNt 4096 65536 0))
    (fun _ _ => inr "C:\Windows\System32\kernel32.dll")
    (fun t _ _ => if existsb is_wait t then sc_present_after sc
                  else sc_present_before sc)
    (fun _ => sc_sysarch sc)
    (fun _ _ _ _ _ _ _ => inr (mkThread 77 500))
    (fun _ _ _ => inr tt)
    (fun _ _ => inr tt)
    (fun _ _ => inr (sc_exit sc)).

Definition kernel32_base : Z := 140703128616960.
Definition ntdll_base : Z := 140703130451968.

Definition modules (name : string) : Z :=
  if String.eqb name "kernel32" then kernel32_base
  else if String.eqb name "ntdll" then ntdll_base else 0.

(** Every export sits 4096 bytes into whichever image is asked. *)
Definition exports (h : Z) (name : string) : Z := h + 4096.

(** Everything succeeds and the library shows up after the thread ran. *)
Definition calm : Scenario :=
  mkScenario modules exports 1879048192 0 655360 (fun size => (1, size)) 1
    1895825408 1895825408 9 (1, 0) 0.

Definition target : Process := mkProcess 1234 300.
Definition hook : Library := mkLibrary "C:\hook.dll" "\Device\HarddiskVolume1\hook.dll".

(** The library is already loaded in the target. *)
Definition loaded_twice : Scenario :=
  mkScenario modules exports 1879048192 1895825408 655360
    (fun size => (1, size)) 1 1895825408 1895825408 9 (1, 0) 0.

(** Everything succeeds, the thread returns a module handle, and the
    library is not found under its normalized path afterwards. *)
Definition vanished : Scenario :=
  mkScenario modules exports 1879048192 0 655360 (fun size => (1, size)) 1
    1895825408 0 9 (1, 0) 0.

(** The remote [LoadLibraryW] returns NULL. *)
Definition load_failed : Scenario :=
  mkScenario modules exports 1879048192 0 655360 (fun size => (1, size)) 1
    0 0 9 (1, 0) 0.

(** The calls of a complete run against [target] and [hook], up to the
    wait for the remote thread. *)
Definition until_wait : Trace :=
  [GetModuleHandleW "kernel32";
   GetProcAddress kernel32_base "LoadLibraryW";
   ModuleInjectedW 300 "\Device\HarddiskVolume1\hook.dll";
   VirtualAllocEx 300 0 24 MEM_COMMIT PAGE_READWRITE;
   WriteProcessMemory 300 655360 "C:\hook.dll" 24;
   FlushInstructionCache 300 655360 24;
   createRemoteThread 300 0 0 (kernel32_base + 4096) 655360 0;
   Thread_setPriority (mkThread 77 500) THREAD_PRIORITY_TIME_CRITICAL;
   Thread_hideFromDebugger (mkThread 77 500)].

(** The target refuses the allocation. *)
Definition no_memory : Scenario :=
  mkScenario modules exports 1879048192 0 0 (fun size => (1, size)) 1
    1895825408 1895825408 9 (1, 0) 0.

(** Probe copies load, and no image exports anything. *)
Definition export_missing : Scenario :=
  mkScenario modules (fun _ _ => 0) 1879048192 0 655360
    (fun size => (1, size)) 1 1895825408 1895825408 9 (1, 0) 0.

(** A module at 0x71000000 in [target]. *)
Definition remote_hook : Module := mkModule 1895825408 target false.

(** kernel32 as the injector sees it in its own process. *)
Definition own_kernel32 : Module :=
  mkModule kernel32_base (current (world calm)) false.

(** The target takes only 10 of the bytes of the path. *)
Definition short_write : Scenario :=
  mkScenario modules exports 1879048192 0 655360 (fun _ => (1, 10)) 1
    1895825408 1895825408 9 (1, 0) 0.

(** The native call is refused (STATUS_ACCESS_DENIED as a [LONG]). *)
Definition access_denied : Scenario :=
  mkScenario modules exports 1879048192 0 655360 (fun size => (1, size)) 1
    1895825408 1895825408 9 (1, 0) (-1073741790).

(** A 64-bit host on which the target runs under WOW64. *)
Definition wow64_target : Scenario :=
  mkScenario modules exports 1879048192 0 655360 (fun size => (1, size)) 1
    1895825408 1895825408 9 (1, 1) 0.

(** A 64-bit host on which the WOW64 query fails. *)
Definition wow64_query_fails : Scenario :=
  mkScenario modules exports 1879048192 0 655360 (fun size => (1, size)) 1
    1895825408 1895825408 9 (0, 0) 0.

(** A natively 32-bit host. *)
Definition host_x86 : Scenario :=
  mkScenario modules exports 1879048192 0 655360 (fun size => (1, size)) 1
    1895825408 1895825408 0 (1, 0) 0.

(** An ARM64 host (architecture value 12). *)
Definition host_arm64 : Scenario :=
  mkScenario modules exports 1879048192 0 655360 (fun size => (1, size)) 1
    1895825408 1895825408 12 (1, 0) 0.

(** The kernel32 facade, as its constructor builds it in [calm]. *)
Definition kernel32_facade : ModuleKernel32 :=
  mkKernel32 own_kernel32 (kernel32_base + 4096) (kernel32_base + 4096).

(** ** The rest of the two files *)

(** [ModuleNtdll]: the module and the three exports bound when it is
    constructed, in the order of the member declarations. *)
Record ModuleNtdll := mkNtdll {
  n_module : Module;
  ntResumeProcess_ : Z;
  ntSuspendProcess_ : Z;
  ntSetInformationThread_ : Z
}.

(** [ModuleNtdll::ModuleNtdll()] *)
Definition ModuleNtdll_new (os : OS) : M ModuleNtdll :=
  m <- Module_named os "ntdll" ;;
  r <- getProcAddress os m "NtResumeProcess" true ;;
  s <- getProcAddress os m "NtSuspendProcess" true ;;
  i <- getProcAddress os m "NtSetInformationThread" true ;;
  ret (mkNtdll m r s i).

(** Modelled from the spec: [ex(message)], the base exception of
    exception.hpp built from a message; the message is kept as the tag of
    the class.  The facade "raises a dedicated failure (carrying the target
    process/thread identity, the API name, and the raw status)". *)
Definition ex_message (message : string) : Exn := ex (ex_other message).

(** The body shared by [ModuleNtdll::ntResumeProcess] and
    [ModuleNtdll::ntSuspendProcess]: call the bound export [f] on the
    handle of the process and test the status. *)
Definition nt_process_call (os : OS) (f : Z) (message api : string)
    (proc : Process) : M unit :=
  if f =? 0 then
    throw (ex (ex_other "std::bad_function_call"))
  else
    status <- sys (CallNtProc f (handle proc))
                  (fun t => os_CallNtProc os t f (handle proc)) ;;
    if negb (NT_SUCCESS status) then
      throw (ex_message message << e_process proc << e_api_function api
               << e_nt_status status)
    else ret tt.

(** [ModuleNtdll::ntResumeProcess] *)
Definition ntResumeProcess (os : OS) (n : ModuleNtdll) (proc : Process)
    : M unit :=
  nt_process_call os (ntResumeProcess_ n) "could not resume process"
    "NtResumeProcess" proc.

(** [ModuleNtdll::ntSuspendProcess] *)
Definition ntSuspendProcess (os : OS) (n : ModuleNtdll) (proc : Process)
    : M unit :=
  nt_process_call os (ntSuspendProcess_ n) "could not suspend process"
    "NtSuspendProcess" proc.

(** [Process::open].  [OpenProcess] takes the access mask first and the
    pid last. *)
Definition open (OpenProcess : Z -> bool -> Z -> Z) (pid : Z)
    (inheritHandle : bool) (desiredAccess : Z) : Exn + Process :=
  let proc := mkProcess pid (OpenProcess desiredAccess inheritHandle pid) in
  if handle proc =? 0 then
    inl (ex ex_injection << e_text "could not get handle to process"
           << e_pid pid)
  else inr proc.

(** The fields of [STARTUPINFO] a caller would set; [si = { 0 }] zeroes
    them all. *)
Record STARTUPINFO := mkStartupInfo {
  cb : Z; dwFlags : Z; wShowWindow : Z;
  hStdInput : Z; hStdOutput : Z; hStdError : Z
}.

Record PROCESS_INFORMATION := mkProcessInformation {
  hProcess : Z; hThread : Z; dwProcessId : Z; dwThreadId : Z
}.

(** What [CreateProcessW] is handed, argument by argument; a null pointer
    is [None]. *)
Record CreateProcessArgs := mkCreateProcessArgs {
  lpApplicationName : string;
  lpCommandLine : string;
  lpProcessAttributes : option Z;
  lpThreadAttributes : option Z;
  bInheritHandles : bool;
  dwCreationFlags : Z;
  lpEnvironment : option (list string);
  lpCurrentDirectory : option string;
  lpStartupInfo : STARTUPINFO
}.

Record ProcessWithThread := mkProcessWithThread {
  pwt_process : Process;
  pwt_thread : Thread
}.

Definition sizeof_STARTUPINFO (a : Arch) : Z :=
  match a with X86 => 68 | X64 => 104 end.

(** [Process::launch].  The parameters [env], [cwd] and [startupInfo] are
    accepted and not used: the call is made with a null environment, a
    null directory and the local [si]. *)
Definition launch
    (CreateProcessW : CreateProcessArgs -> Z * PROCESS_INFORMATION)
    (a : Arch) (app args : string)
    (env : option (list string)) (cwd : option string)
    (inheritHandles : bool) (creationFlags : Z)
    (processAttributes threadAttributes : option Z)
    (startupInfo : option STARTUPINFO) : Exn + ProcessWithThread :=
  let si := mkStartupInfo (sizeof_STARTUPINFO a) 0 0 0 0 0 in
  let commandLine := (app ++ " " ++ args)%string in
  let '(created, pi) :=
    CreateProcessW
      (mkCreateProcessArgs app commandLine processAttributes threadAttributes
         inheritHandles creationFlags None None si) in
  if created =? 0 then
    inl (ex ex_injection << e_text "CreateProcess failed")
  else
    inr (mkProcessWithThread
           (mkProcess (dwProcessId pi) (hProcess pi))
           (mkThread (dwThreadId pi) (hThread pi))).

(** ** More vocabulary *)

Definition is_native_call (c : Call) : bool :=
  match c with CallNtProc _ _ => true | _ => false end.
Definition is_wow64_query (c : Call) : bool :=
  match c with CallIsWow64 _ _ => true | _ => false end.
Definition is_read (c : Call) : bool :=
  match c with ReadProcessMemory _ _ _ => true | _ => false end.
Definition is_library_load (c : Call) : bool :=
  match c with LoadLibraryExW _ _ => true | _ => false end.
Definition is_library_free (c : Call) : bool :=
  match c with FreeLibrary _ => true | _ => false end.
Definition is_lookup (c : Call) : bool :=
  match c with GetProcAddress _ _ => true | _ => false end.

(** Every way of cutting a trace around one of its calls. *)
Fixpoint splits (tr : Trace) : list (Trace * Call * Trace) :=
  match tr with
  | [] => []
  | c :: r =>
      ([], c, r) ::
      map (fun s => match s with (pre, x, post) => (c :: pre, x, post) end)
          (splits r)
  end.

(** The exception with which the helper call [c], made after [pre],
    comes back, if it does. *)
Definition raised (os : OS) (pre : Trace) (c : Call) : option Exn :=
  match c with
  | createRemoteThread h attr stack start arg flags =>
      match ext_createRemoteThread os pre h attr stack start arg flags with
      | inl e => Some e | inr _ => None
      end
  | Thread_setPriority t prio =>
      match ext_setPriority os pre t prio with
      | inl e => Some e | inr _ => None
      end
  | Thread_hideFromDebugger t =>
      match ext_hideFromDebugger os pre t with
      | inl e => Some e | inr _ => None
      end
  | Thread_waitForTermination t =>
      match ext_waitForTermination os pre t with
      | inl e => Some e | inr _ => None
      end
  | Module_path m =>
      match ext_Module_path os pre m with
      | inl e => Some e | inr _ => None
      end
  | _ => None
  end.

(** A trace without its diagnostic records. *)
Definition without_reports (tr : Trace) : Trace :=
  filter (fun c => negb (is_report c)) tr.

(** The remote buffer a call works on. *)
Definition buffer_of (c : Call) : option Z :=
  match c with
  | WriteProcessMemory _ addr _ _ => Some addr
  | FlushInstructionCache _ addr _ => Some addr
  | createRemoteThread _ _ _ _ arg _ => Some arg
  | _ => None
  end.

(** The process handle a call on the target is given. *)
Definition target_handle_of (c : Call) : option Z :=
  match c with
  | ModuleInjectedW h _ => Some h
  | VirtualAllocEx h _ _ _ _ => Some h
  | VirtualFreeEx h _ _ _ => Some h
  | WriteProcessMemory h _ _ _ => Some h
  | FlushInstructionCache h _ _ => Some h
  | ReadProcessMemory h _ _ => Some h
  | createRemoteThread h _ _ _ _ _ => Some h
  | CallNtProc _ h => Some h
  | CallIsWow64 _ h => Some h
  | _ => None
  end.

Definition RemoteReadFailure : Exn :=
  ex ex_injection << e_text "could not read memory in remote process".

Definition HandleOpenFailure (pid : Z) : Exn :=
  ex ex_injection << e_text "could not get handle to process" << e_pid pid.

Definition LaunchFailure : Exn :=
  ex ex_injection << e_text "CreateProcess failed".

Definition bad_function_call : Exn := ex (ex_other "std::bad_function_call").

(** ** More concrete environments *)

(** The cache flush is refused. *)
Definition no_flush : Scenario :=
  mkScenario modules exports 1879048192 0 655360 (fun size => (1, size)) 0
    1895825408 1895825408 9 (1, 0) 0.

(** No probe copy loads. *)
Definition no_probe : Scenario :=
  mkScenario modules exports 0 0 655360 (fun size => (1, size)) 1
    1895825408 1895825408 9 (1, 0) 0.

(** A system whose kernel32 has no [GetNativeSystemInfo]. *)
Definition old_windows : Scenario :=
  mkScenario modules
    (fun h name =>
       if String.eqb name "GetNativeSystemInfo" then 0 else h + 4096)
    1879048192 0 655360 (fun size => (1, size)) 1
    1895825408 1895825408 9 (1, 0) 0.

Definition denied : Exn := ex (ex_other "SetThreadPriority failed").

(** [calm], but the priority of the remote thread cannot be set. *)
Definition priority_refused : OS :=
  let os := world calm in
  mkOS (arch os) (current os) (os_GetModuleHandleW os) (os_GetLastError os)
    (os_LoadLibraryExW os) (os_GetProcAddress os) (os_CallNtProc os)
    (os_CallIsWow64 os) (os_VirtualAllocEx os) (os_WriteProcessMemory os)
    (os_FlushInstructionCache os) (os_ReadDosHeader os) (os_ReadNtHeaders os)
    (ext_Module_path os) (ext_ModuleInjectedW os) (ext_MyGetSystemInfo os)
    (ext_createRemoteThread os) (fun _ _ _ => inl denied)
    (ext_hideFromDebugger os) (ext_waitForTermination os).

(** [calm], but the memory of the target cannot be read back. *)
Definition unreadable : OS :=
  let os := world calm in
  mkOS (arch os) (current os) (os_GetModuleHandleW os) (os_GetLastError os)
    (os_LoadLibraryExW os) (os_GetProcAddress os) (os_CallNtProc os)
    (os_CallIsWow64 os) (os_VirtualAllocEx os) (os_WriteProcessMemory os)
    (os_FlushInstructionCache os) (fun _ _ _ _ => (0, 0, mkDos 0))
    (os_ReadNtHeaders os)
    (ext_Module_path os) (ext_ModuleInjectedW os) (ext_MyGetSystemInfo os)
    (ext_createRemoteThread os) (ext_setPriority os)
    (ext_hideFromDebugger os) (ext_waitForTermination os).

(** The calls of a complete run against [target] and [hook], up to the
    second header read. *)
Definition until_report : Trace :=
  until_wait ++
  [Thread_waitForTermination (mkThread 77 500);
   ModuleInjectedW 300 "\Device\HarddiskVolume1\hook.dll";
   ReadProcessMemory 300 1895825408 64;
   ReadProcessMemory 300 1895825640 264].

Definition calm_report : Report :=
  mkReport "\Device\HarddiskVolume1\hook.dll" 1234 1895825408 1895829504
    (kilobytes 65536) 0 1895825408.

(** The ntdll facade, as its constructor builds it in [calm]. *)
Definition ntdll_facade : ModuleNtdll :=
  mkNtdll (mkModule ntdll_base (current (world calm)) false)
    (ntdll_base + 4096) (ntdll_base + 4096) (ntdll_base + 4096).

(** An [OpenProcess] that knows the process 1234 only. *)
Definition OpenProcess_1234 (desiredAccess : Z) (inheritHandle : bool)
    (pid : Z) : Z :=
  if pid =? 1234 then 300 else 0.

(** A [CreateProcessW] that starts anything as process 1234. *)
Definition CreateProcessW_1234 (request : CreateProcessArgs)
    : Z * PROCESS_INFORMATION :=
  (1, mkProcessInformation 300 500 1234 77).

(** * Properties *)

(** ** Equations of the building blocks *)

Lemma Process_eqb_refl (p : Process) : Process_eqb p p = true.
Proof. unfold Process_eqb. apply Z.eqb_refl. Qed.

Lemma Module_named_eq (os : OS) (name : string) (t : Trace) :
  Module_named os name t =
  if os_GetModuleHandleW os t name =? 0 then
    (inl (ModuleLookupFailure name
            (os_GetLastError os (t ++ [GetModuleHandleW name]))),
     [GetModuleHandleW name; GetLastError])
  else
    (inr (mkModule (os_GetModuleHandleW os t name) (current os) false),
     [GetModuleHandleW name]).
Proof.
  unfold Module_named, bind, sys, throw, ret. cbn.
  destruct (os_GetModuleHandleW os t name =? 0); reflexivity.
Qed.

Lemma getProcAddress_direct_eq (os : OS) (m : Module) (name : string)
    (throwing : bool) (t : Trace) :
  getProcAddress_direct os m name throwing t =
  if os_GetProcAddress os t (m_handle m) name =? 0 then
    if throwing then
      (inl (ProcAddressResolutionFailure name
              (os_GetLastError os (t ++ [GetProcAddress (m_handle m) name]))),
       [GetProcAddress (m_handle m) name; GetLastError])
    else (inr 0, [GetProcAddress (m_handle m) name])
  else
    (inr (os_GetProcAddress os t (m_handle m) name),
     [GetProcAddress (m_handle m) name]).
Proof.
  unfold getProcAddress_direct, bind, sys, throw, ret. cbn.
  destruct (os_GetProcAddress os t (m_handle m) name =? 0);
    destruct throwing; reflexivity.
Qed.

(** A module of the current process is resolved by the direct branch. *)
Lemma getProcAddress_current (os : OS) (m : Module) (name : string)
    (throwing : bool) :
  m_process m = current os ->
  getProcAddress os m name throwing = getProcAddress_direct os m name throwing.
Proof.
  intros H. unfold getProcAddress. rewrite H, Process_eqb_refl. reflexivity.
Qed.

(** What [load] hands out is null or owned by the current process, so the
    nested resolution of the probe branch is the direct one. *)
Lemma load_owner (os : OS) (name : string) (flags : Z) (f thr : bool)
    (t tr : Trace) (m : Module) :
  load os name flags f thr t = (inr m, tr) ->
  m = Module_null \/ (m_handle m <> 0 /\ m_process m = current os).
Proof.
  unfold load, bind, sys, throw, ret. cbn.
  destruct (os_LoadLibraryExW os t name flags =? 0) eqn:E.
  - destruct thr; cbn; intros H; inversion H. now left.
  - cbn. intros H. inversion H. right. cbn. split; [|reflexivity].
    apply Z.eqb_neq. exact E.
Qed.

Lemma getProcAddress_nested_direct (os : OS) (m : Module) (name : string) :
  m_process m = current os ->
  getProcAddress_nested os m name = getProcAddress_direct os m name true.
Proof.
  intros H. unfold getProcAddress_nested. rewrite H, Process_eqb_refl.
  reflexivity.
Qed.

(** ** Traces *)

Lemma count_app (P : Call -> bool) (l1 l2 : Trace) :
  count P (l1 ++ l2) = (count P l1 + count P l2)%nat.
Proof. unfold count. rewrite filter_app, length_app. reflexivity. Qed.

Lemma count_cons (P : Call -> bool) (c : Call) (l : Trace) :
  count P (c :: l) = ((if P c then 1 else 0) + count P l)%nat.
Proof. unfold count. cbn. destruct (P c); reflexivity. Qed.

(** A call kind that occurs at most once in a trace pins down where the
    trace is cut around it. *)
Lemma split_unique (P : Call -> bool) (tr pre post : Trace) (x : Call) :
  tr = pre ++ x :: post ->
  P x = true ->
  (count P tr <= 1)%nat ->
  split_first P tr = Some (pre, x, post).
Proof.
  intros -> Hx. induction pre as [|c pre IH]; cbn [app split_first].
  - now rewrite Hx.
  - rewrite count_cons. destruct (P c) eqn:Hc.
    + rewrite count_app, count_cons, Hx. lia.
    + intros Hle. rewrite IH by exact Hle. reflexivity.
Qed.

(** ** Case analysis of a run, in program order *)

Arguments LibPathLen : simpl never.
Arguments ptr_wrap : simpl never.
Arguments sizeof_IMAGE_NT_HEADERS : simpl never.
Arguments sizeof_IMAGE_DOS_HEADER : simpl never.
Arguments Z.eqb : simpl never.
Arguments Z.geb : simpl never.
Arguments String.eqb : simpl never.

Ltac unfold_M :=
  unfold run, inject, inject_verify, suspend, is64bit, isWow64Process,
    getProcAddress, getProcAddress_probe, getProcAddress_nested,
    getProcAddress_direct, load, Module_named, bind, sys, ext, scoped,
    throw, ret.

Ltac case_answer :=
  match goal with
  | |- context [if ?b then _ else _] =>
      tryif is_var b then fail else destruct b eqn:?
  | |- context [match ?x with inl _ => _ | inr _ => _ end] =>
      destruct x eqn:?
  | |- context [os_WriteProcessMemory ?o ?t ?a ?b ?c ?d] =>
      destruct (os_WriteProcessMemory o t a b c d) as [? ?] eqn:?
  | |- context [os_ReadDosHeader ?o ?t ?a ?b ?c] =>
      destruct (os_ReadDosHeader o t a b c) as [[? ?] ?] eqn:?
  | |- context [os_ReadNtHeaders ?o ?t ?a ?b ?c] =>
      destruct (os_ReadNtHeaders o t a b c) as [[? ?] ?] eqn:?
  | |- context [os_CallIsWow64 ?o ?t ?a ?b] =>
      destruct (os_CallIsWow64 o t a b) as [? ?] eqn:?
  | |- context [if ?b then _ else _] => destruct b
  end.

Ltac tidy := cbn; rewrite ?Process_eqb_refl; cbn.
Ltac all_paths := unfold_M; tidy; repeat (case_answer; tidy).

(** Locate the one call of kind [P] in a concrete trace. *)
Ltac locate P H :=
  apply (split_unique P) in H;
  [ cbn in H; try discriminate H; try (injection H as <- <- <-)
  | assumption || reflexivity
  | cbn; lia ].

(** ** The injection protocol *)

(** C1: when the library is already in the module list of the target at
    the presence check, [inject] fails with [AlreadyInjectedFailure]
    carrying the library path and the pid, and it performs no remote
    allocation and creates no remote thread: its only calls are the two
    lookups in the injector's own process and the presence check. *)
Theorem inject_already_loaded (os : OS) (p : Process) (lib : Library)
    (verbose : bool) (h a : Z) :
  loader_resolved os h a ->
  ext_ModuleInjectedW os
    [GetModuleHandleW "kernel32"; GetProcAddress h "LoadLibraryW"]
    (handle p) (ntFilename lib) <> 0 ->
  run (inject os p lib verbose) =
    (inl (AlreadyInjectedFailure lib p),
     [GetModuleHandleW "kernel32"; GetProcAddress h "LoadLibraryW";
      ModuleInjectedW (handle p) (ntFilename lib)]) /\
  count is_alloc (trace (run (inject os p lib verbose))) = 0%nat /\
  count is_thread_create (trace (run (inject os p lib verbose))) = 0%nat.
Proof.
  intros Hres Hp. unfold loader_resolved, export_found in Hres.
  cbn [app] in Hres. destruct Hres as (<- & Hh & <- & Ha).
  apply Z.eqb_neq in Hh, Ha, Hp.
  unfold_M; tidy. rewrite Hh. tidy. rewrite Ha. tidy. rewrite Hp. tidy.
  repeat split.
Qed.

Lemma inject_already_loaded_witness :
  run (inject (world loaded_twice) target hook true) =
    (inl (AlreadyInjectedFailure hook target),
     [GetModuleHandleW "kernel32"; GetProcAddress kernel32_base "LoadLibraryW";
      ModuleInjectedW 300 "\Device\HarddiskVolume1\hook.dll"]).
Proof.
  apply (inject_already_loaded (world loaded_twice) target hook true
           kernel32_base (kernel32_base + 4096)).
  - repeat split; discriminate.
  - discriminate.
Defined.

(** Whatever the injector finds in its own process, a library that is in
    the module list of the target makes [inject] fail with nothing
    allocated and no thread created. *)
Lemma inject_already_loaded_no_effect (os : OS) (p : Process) (lib : Library)
    (verbose : bool) :
  already_loaded os p lib ->
  (exists e, result (run (inject os p lib verbose)) = inl e) /\
  count is_alloc (trace (run (inject os p lib verbose))) = 0%nat /\
  count is_thread_create (trace (run (inject os p lib verbose))) = 0%nat.
Proof.
  intros Hp.
  assert (Hp' := Hp [GetModuleHandleW "kernel32";
    GetProcAddress (os_GetModuleHandleW os [] "kernel32") "LoadLibraryW"]).
  apply Z.eqb_neq in Hp'.
  unfold_M; tidy.
  destruct (os_GetModuleHandleW os [] "kernel32" =? 0) eqn:E1; tidy.
  { repeat split; eauto. }
  destruct (os_GetProcAddress os _ _ _ =? 0) eqn:E2; tidy.
  { repeat split; eauto. }
  rewrite Hp'. tidy. repeat split; eauto.
Qed.

(** C2, as stated, fails in its second half: the thread exits with a
    non-zero code, the library is not found afterwards, and [inject]
    returns normally. *)
Lemma inject_unobserved_load_returns :
  run (inject (world vanished) target hook true) =
    (inr tt,
     until_wait ++
     [Thread_waitForTermination (mkThread 77 500);
      ModuleInjectedW 300 "\Device\HarddiskVolume1\hook.dll";
      VirtualFreeEx 300 655360 0 MEM_RELEASE]) /\
  ext_waitForTermination (world vanished) until_wait (mkThread 77 500) =
    inr 1895825408 /\
  ext_ModuleInjectedW (world vanished)
    (until_wait ++ [Thread_waitForTermination (mkThread 77 500)])
    (handle target) (ntFilename hook) = 0.
Proof. repeat split. Qed.

(** C2 (amended): after the wait for the remote thread has returned the
    exit code, if the library is not found in the module list of the
    target, then [inject] raises [InjectionFailure] when the exit code is
    the sentinel 0, and returns normally when it is any other value; in
    both cases the remote buffer is released once and no diagnostic record
    is emitted. *)
Theorem inject_unobserved_load (os : OS) (p : Process) (lib : Library)
    (verbose : bool) (r : Exn + unit) (tr pre post : Trace) (th : Thread)
    (exitCode : Z) :
  run (inject os p lib verbose) = (r, tr) ->
  tr = pre ++ Thread_waitForTermination th :: post ->
  ext_waitForTermination os pre th = inr exitCode ->
  ext_ModuleInjectedW os (pre ++ [Thread_waitForTermination th])
    (handle p) (ntFilename lib) = 0 ->
  (exitCode = 0 -> r = inl InjectionFailure) /\
  (exitCode <> 0 -> r = inr tt) /\
  count is_free post = 1%nat /\ count is_report post = 0%nat.
Proof.
  intros Hrun Htr Hwait Habsent. revert Hrun.
  all_paths; intros Hrun; injection Hrun as <- <-; locate is_wait Htr.
  all: cbn in Habsent;
    match goal with
    | H : negb (_ =? 0) = true |- _ =>
        rewrite Habsent in H; discriminate H
    | H : ext_waitForTermination _ _ _ = inl _ |- _ =>
        rewrite Hwait in H; discriminate H
    | H : ext_waitForTermination _ _ _ = inr ?z |- _ =>
        rewrite Hwait in H; injection H as <-
    end.
  all: repeat split; try reflexivity; intros He;
    match goal with
    | H : (_ =? 0) = true |- _ => apply Z.eqb_eq in H; congruence
    | H : (_ =? 0) = false |- _ => apply Z.eqb_neq in H; congruence
    end.
Qed.

Lemma inject_unobserved_load_witness :
  result (run (inject (world load_failed) target hook true)) =
    inl InjectionFailure.
Proof.
  refine (proj1 (inject_unobserved_load (world load_failed) target hook true
            _ _ until_wait _ (mkThread 77 500) 0 _ _ _ _) eq_refl);
    reflexivity.
Defined.

(** C3, as stated, fails: in a complete run the loader export is resolved
    second of all calls, before the presence check, and no probe copy is
    ever loaded. *)
Lemma inject_resolution_not_step5 :
  let tr := trace (run (inject (world calm) target hook false)) in
  index_of is_resolution tr = Some 1%nat /\
  index_of is_presence_check tr = Some 2%nat /\
  index_of is_flush tr = Some 5%nat /\
  existsb is_probe_load tr = false /\
  ~ resolved_as_step5 tr.
Proof.
  cbv zeta. repeat split.
  intros (Hprobe & _). discriminate Hprobe.
Qed.

(** C3 (amended): [inject] is a linear sequence that begins with the
    lookup of kernel32 in the current process; it never loads a probe copy;
    and whenever it comes to create the remote thread, the calls before
    that are, in order: module lookup, direct resolution of [LoadLibraryW]
    in the current process, presence check, remote allocation, remote
    write, cache flush; the thread starts at the address resolved in the
    second call, with the remote buffer as its argument. *)
Theorem inject_sequence (os : OS) (p : Process) (lib : Library)
    (verbose : bool) (r : Exn + unit) (tr : Trace) :
  run (inject os p lib verbose) = (r, tr) ->
  existsb is_probe_load tr = false /\
  (exists rest, tr = GetModuleHandleW "kernel32" :: rest) /\
  (forall pre c post,
     tr = pre ++ c :: post -> is_thread_create c = true ->
     exists h a buf,
       loader_resolved os h a /\
       pre = [GetModuleHandleW "kernel32";
              GetProcAddress h "LoadLibraryW";
              ModuleInjectedW (handle p) (ntFilename lib);
              VirtualAllocEx (handle p) 0 (LibPathLen os lib)
                MEM_COMMIT PAGE_READWRITE;
              WriteProcessMemory (handle p) buf (path lib) (LibPathLen os lib);
              FlushInstructionCache (handle p) buf (LibPathLen os lib)] /\
       c = createRemoteThread (handle p) 0 0 a buf 0).
Proof.
  all_paths; intros Hrun; injection Hrun as <- <-.
  all: split; [reflexivity|]; split; [eexists; reflexivity|].
  all: intros pre c post Htr Hc; locate is_thread_create Htr.
  all: eexists _, _, _; unfold loader_resolved, export_found; repeat split;
    try reflexivity; apply Z.eqb_neq; assumption.
Qed.

Lemma inject_sequence_witness :
  exists h a buf,
    loader_resolved (world calm) h a /\
    firstn 6 until_wait =
      [GetModuleHandleW "kernel32";
       GetProcAddress h "LoadLibraryW";
       ModuleInjectedW (handle target) (ntFilename hook);
       VirtualAllocEx (handle target) 0 (LibPathLen (world calm) hook)
         MEM_COMMIT PAGE_READWRITE;
       WriteProcessMemory (handle target) buf (path hook)
         (LibPathLen (world calm) hook);
       FlushInstructionCache (handle target) buf
         (LibPathLen (world calm) hook)] /\
    createRemoteThread 300 0 0 (kernel32_base + 4096) 655360 0 =
      createRemoteThread (handle target) 0 0 a buf 0.
Proof.
  refine (proj2 (proj2 (inject_sequence (world calm) target hook false
            _ _ eq_refl)) (firstn 6 until_wait) _ _ _ _);
    reflexivity.
Defined.

(** ** Resolution of exports *)

Lemma ptr_wrap_rebase (a : Arch) (h probe rva : Z) :
  ptr_wrap a (h + ptr_wrap a (ptr_wrap a (probe + rva) - probe)) =
  ptr_wrap a (h + rva).
Proof.
  unfold ptr_wrap. set (n := 2 ^ ptr_bits a).
  rewrite Zplus_mod_idemp_r.
  replace (h + ((probe + rva) mod n - probe))
    with ((probe + rva) mod n + (h - probe)) by lia.
  rewrite Zplus_mod_idemp_l. f_equal. lia.
Qed.

(** C4: for a module loaded in the current process and an export that
    resolves, the direct path and the probe-copy path (the same module
    taken as if another process owned it; the probe copy loads and holds
    the export at the same image-relative offset) return the same
    address. *)
Theorem getProcAddress_probe_agrees (os : OS) (m : Module) (owner : Process)
    (name : string) (throwing : bool) (p : string) (probe rva : Z) :
  m_process m = current os ->
  Process_eqb owner (current os) = false ->
  exports_at os (m_handle m) name rva ->
  ext_Module_path os [] (as_remote m owner) = inr p ->
  os_LoadLibraryExW os [Module_path (as_remote m owner)] p
    DONT_RESOLVE_DLL_REFERENCES = probe ->
  probe <> 0 ->
  exports_at os probe name rva ->
  result (run (getProcAddress os (as_remote m owner) name throwing)) =
    result (run (getProcAddress os m name throwing)) /\
  result (run (getProcAddress os m name throwing)) =
    inr (ptr_wrap (arch os) (m_handle m + rva)).
Proof.
  intros Hown Hrem Hexp Hpath Hload Hprobe Hexp'.
  assert (Hdirect : result (run (getProcAddress os m name throwing)) =
                    inr (ptr_wrap (arch os) (m_handle m + rva))).
  { rewrite getProcAddress_current by exact Hown.
    unfold run, result. rewrite getProcAddress_direct_eq.
    destruct (Hexp []) as [-> Hnz].
    apply Z.eqb_neq in Hnz. rewrite Hnz. reflexivity. }
  split; [|exact Hdirect].
  rewrite Hdirect.
  unfold run, result, getProcAddress, getProcAddress_probe.
  cbn [m_process as_remote]. rewrite Hrem. cbn [negb].
  unfold bind at 1. unfold ext at 1. rewrite Hpath.
  unfold bind at 1. unfold load, bind at 1, sys at 1. cbn [app].
  rewrite Hload. apply Z.eqb_neq in Hprobe. rewrite Hprobe.
  unfold ret at 1. cbn [app m_handle].
  unfold scoped. cbn [m_handle]. rewrite Hprobe, andb_false_r.
  unfold bind. rewrite getProcAddress_nested_direct by reflexivity.
  rewrite getProcAddress_direct_eq. cbn [m_handle].
  match goal with
  | |- context [os_GetProcAddress os ?t probe name] =>
      destruct (Hexp' t) as [-> Hnz]
  end.
  apply Z.eqb_neq in Hnz. rewrite Hnz. unfold ret. cbn [fst m_handle].
  f_equal. apply ptr_wrap_rebase.
Qed.

Lemma getProcAddress_probe_agrees_witness :
  result (run (getProcAddress (world calm) (as_remote own_kernel32 target)
                 "LoadLibraryW" true)) =
  result (run (getProcAddress (world calm) own_kernel32 "LoadLibraryW" true)).
Proof.
  refine (proj1 (getProcAddress_probe_agrees (world calm) own_kernel32 target
            "LoadLibraryW" true "C:\Windows\System32\kernel32.dll"
            1879048192 4096 eq_refl eq_refl _ eq_refl eq_refl _ _)).
  - intros t. split; [reflexivity | discriminate].
  - discriminate.
  - intros t. split; [reflexivity | discriminate].
Defined.

(** C6 fails on the code: with [throwing = false], a module of another
    process, a probe copy that loads and an export the probe copy does not
    have, the nested lookup (line 81, [throwing] left at its default)
    raises instead of yielding the null address. *)
Theorem getProcAddress_nothrow_raises (os : OS) (m : Module) (name : string)
    (p : string) (probe : Z) :
  Process_eqb (m_process m) (current os) = false ->
  ext_Module_path os [] m = inr p ->
  os_LoadLibraryExW os [Module_path m] p DONT_RESOLVE_DLL_REFERENCES = probe ->
  probe <> 0 ->
  os_GetProcAddress os
    [Module_path m; LoadLibraryExW p DONT_RESOLVE_DLL_REFERENCES]
    probe name = 0 ->
  run (getProcAddress os m name false) =
    (inl (ProcAddressResolutionFailure name
            (os_GetLastError os
               [Module_path m; LoadLibraryExW p DONT_RESOLVE_DLL_REFERENCES;
                GetProcAddress probe name])),
     [Module_path m; LoadLibraryExW p DONT_RESOLVE_DLL_REFERENCES;
      GetProcAddress probe name; GetLastError; FreeLibrary probe]).
Proof.
  intros Hrem Hpath Hload Hprobe Habsent.
  unfold_M. rewrite Hrem. cbn. rewrite Hpath. cbn.
  rewrite Hload. apply Z.eqb_neq in Hprobe. rewrite Hprobe. tidy.
  rewrite Hprobe. tidy. apply Z.eqb_eq in Habsent. rewrite Habsent.
  reflexivity.
Qed.

Lemma getProcAddress_nothrow_raises_witness :
  run (getProcAddress (world export_missing) remote_hook "add" false) =
    (inl (ProcAddressResolutionFailure "add" 127),
     [Module_path remote_hook;
      LoadLibraryExW "C:\Windows\System32\kernel32.dll"
        DONT_RESOLVE_DLL_REFERENCES;
      GetProcAddress 1879048192 "add"; GetLastError;
      FreeLibrary 1879048192]).
Proof.
  apply (getProcAddress_nothrow_raises (world export_missing) remote_hook
           "add" "C:\Windows\System32\kernel32.dll" 1879048192);
    (reflexivity || discriminate).
Defined.

(** The cases in which [throwing = false] does collapse the failure: the
    direct branch, and a probe copy that does not load. *)
Lemma getProcAddress_nothrow_direct (os : OS) (m : Module) (name : string) :
  m_process m = current os ->
  os_GetProcAddress os [] (m_handle m) name = 0 ->
  run (getProcAddress os m name false) =
    (inr 0, [GetProcAddress (m_handle m) name]).
Proof.
  intros Hown Habsent. rewrite getProcAddress_current by exact Hown.
  unfold run. rewrite getProcAddress_direct_eq, Habsent. reflexivity.
Qed.

Lemma getProcAddress_nothrow_probe_unloadable (os : OS) (m : Module)
    (name : string) (p : string) :
  Process_eqb (m_process m) (current os) = false ->
  ext_Module_path os [] m = inr p ->
  os_LoadLibraryExW os [Module_path m] p DONT_RESOLVE_DLL_REFERENCES = 0 ->
  run (getProcAddress os m name false) =
    (inr 0, [Module_path m; LoadLibraryExW p DONT_RESOLVE_DLL_REFERENCES]).
Proof.
  intros Hrem Hpath Hload.
  unfold_M. rewrite Hrem. cbn. rewrite Hpath. cbn.
  apply Z.eqb_eq in Hload. rewrite Hload. reflexivity.
Qed.

(** ** Ownership of the remote buffer *)

(** C5 fails on the code in its counting half: when the target refuses
    the allocation, the owner built at line 65 still runs its deleter, so
    one release request (for the null address) is issued although no
    allocation succeeded. *)
Theorem inject_release_after_failed_alloc (os : OS) (p : Process)
    (lib : Library) (verbose : bool) (h a : Z) :
  loader_resolved os h a ->
  ext_ModuleInjectedW os
    [GetModuleHandleW "kernel32"; GetProcAddress h "LoadLibraryW"]
    (handle p) (ntFilename lib) = 0 ->
  os_VirtualAllocEx os
    [GetModuleHandleW "kernel32"; GetProcAddress h "LoadLibraryW";
     ModuleInjectedW (handle p) (ntFilename lib)]
    (handle p) 0 (LibPathLen os lib) MEM_COMMIT PAGE_READWRITE = 0 ->
  run (inject os p lib verbose) =
    (inl RemoteAllocFailure,
     [GetModuleHandleW "kernel32"; GetProcAddress h "LoadLibraryW";
      ModuleInjectedW (handle p) (ntFilename lib);
      VirtualAllocEx (handle p) 0 (LibPathLen os lib) MEM_COMMIT PAGE_READWRITE;
      VirtualFreeEx (handle p) 0 0 MEM_RELEASE]) /\
  successful_allocations os [] (trace (run (inject os p lib verbose))) = 0%nat /\
  count is_free (trace (run (inject os p lib verbose))) = 1%nat.
Proof.
  intros Hres Habsent Halloc. unfold loader_resolved, export_found in Hres.
  cbn [app] in Hres. destruct Hres as (Hh & Hh0 & Ha & Ha0). subst h a.
  apply Z.eqb_neq in Hh0, Ha0.
  assert (Hrun : run (inject os p lib verbose) =
    (inl RemoteAllocFailure,
     [GetModuleHandleW "kernel32";
      GetProcAddress (os_GetModuleHandleW os [] "kernel32") "LoadLibraryW";
      ModuleInjectedW (handle p) (ntFilename lib);
      VirtualAllocEx (handle p) 0 (LibPathLen os lib) MEM_COMMIT PAGE_READWRITE;
      VirtualFreeEx (handle p) 0 0 MEM_RELEASE])).
  { assert (Habsent' := Habsent). assert (Halloc' := Halloc).
    apply Z.eqb_eq in Habsent', Halloc'.
    unfold_M. tidy. rewrite Hh0. tidy. rewrite Ha0. tidy.
    rewrite Habsent'. tidy. rewrite Halloc'. tidy. rewrite Halloc.
    reflexivity. }
  rewrite Hrun. split; [reflexivity|]. split; [|reflexivity].
  unfold trace. cbn [successful_allocations snd app]. rewrite Halloc.
  reflexivity.
Qed.

Lemma inject_release_after_failed_alloc_witness :
  run (inject (world no_memory) target hook false) =
    (inl RemoteAllocFailure,
     [GetModuleHandleW "kernel32"; GetProcAddress kernel32_base "LoadLibraryW";
      ModuleInjectedW 300 "\Device\HarddiskVolume1\hook.dll";
      VirtualAllocEx 300 0 24 MEM_COMMIT PAGE_READWRITE;
      VirtualFreeEx 300 0 0 MEM_RELEASE]) /\
  successful_allocations (world no_memory) []
    (trace (run (inject (world no_memory) target hook false))) = 0%nat /\
  count is_free (trace (run (inject (world no_memory) target hook false))) =
    1%nat.
Proof.
  apply (inject_release_after_failed_alloc (world no_memory) target hook false
           kernel32_base (kernel32_base + 4096)).
  - repeat split; discriminate.
  - reflexivity.
  - reflexivity.
Defined.

(** What does hold: every allocation request, granted or not, is paired
    with exactly one release request, which is the last call of the run
    and carries the address the allocation returned. *)
Lemma inject_release_paired (os : OS) (p : Process) (lib : Library)
    (verbose : bool) (r : Exn + unit) (tr : Trace) :
  run (inject os p lib verbose) = (r, tr) ->
  count is_free tr = count is_alloc tr /\
  (count is_alloc tr <= 1)%nat /\
  (forall pre c post,
     tr = pre ++ c :: post -> is_alloc c = true ->
     exists between,
       post = between ++
         [VirtualFreeEx (handle p)
            (os_VirtualAllocEx os pre (handle p) 0 (LibPathLen os lib)
               MEM_COMMIT PAGE_READWRITE) 0 MEM_RELEASE] /\
       count is_free between = 0%nat).
Proof.
  all_paths; intros Hrun; injection Hrun as <- <-.
  all: split; [reflexivity|]; split; [cbn; lia|].
  all: intros pre c post Htr Hc; locate is_alloc Htr.
  all: match goal with
       | |- exists between, ?l = _ /\ _ =>
           exists (removelast l); split; reflexivity
       end.
Qed.

(** ** Size of the remote buffer *)

Lemma wcslen_nonneg (s : string) : 0 <= wcslen s.
Proof.
  induction s as [|c s IH]; cbn [wcslen]; [lia|].
  destruct (Ascii.eqb c Ascii.zero); lia.
Qed.

(** Without an embedded terminator, [wcslen] counts every character. *)
Lemma wcslen_length (s : string) :
  (forall c, In c (list_ascii_of_string s) -> c <> Ascii.zero) ->
  wcslen s = Z.of_nat (String.length s).
Proof.
  induction s as [|c s IH]; intros Hnz; [reflexivity|].
  cbn [wcslen String.length].
  destruct (Ascii.eqb c Ascii.zero) eqn:E.
  - apply Ascii.eqb_eq in E. exfalso. apply (Hnz c); [now left | exact E].
  - rewrite IH; [lia|]. intros d Hd. apply Hnz. now right.
Qed.

Lemma LibPathLen_exact (os : OS) (lib : Library) :
  (wcslen (path lib) + 1) * sizeof_wchar_t < 2 ^ ptr_bits (arch os) ->
  LibPathLen os lib = (wcslen (path lib) + 1) * sizeof_wchar_t.
Proof.
  intros Hfit. unfold LibPathLen, ptr_wrap. apply Z.mod_small.
  pose proof (wcslen_nonneg (path lib)). unfold sizeof_wchar_t in *. lia.
Qed.

(** C9: the remote buffer is requested right after the presence check,
    once, with exactly (characters of the path + 1 terminator) * character
    width bytes, and every run that finds the library absent makes that
    request; the write follows a granted allocation immediately, goes to
    the address the allocation returned, with the path and the same number
    of bytes; a write that fails or reports any other count raises
    [RemoteWriteFailure] (only the release of the buffer follows), and only
    an exact-length write goes on to the cache flush. *)
Theorem inject_exact_write (os : OS) (p : Process) (lib : Library)
    (verbose : bool) (r : Exn + unit) (tr pre post : Trace) (c : Call) :
  (wcslen (path lib) + 1) * sizeof_wchar_t < 2 ^ ptr_bits (arch os) ->
  run (inject os p lib verbose) = (r, tr) ->
  tr = pre ++ c :: post ->
  let len := (wcslen (path lib) + 1) * sizeof_wchar_t in
  let request := VirtualAllocEx (handle p) 0 len MEM_COMMIT PAGE_READWRITE in
  (is_alloc c = true ->
     c = request /\
     (exists h,
        pre = [GetModuleHandleW "kernel32"; GetProcAddress h "LoadLibraryW";
               ModuleInjectedW (handle p) (ntFilename lib)]) /\
     let buf := os_VirtualAllocEx os pre (handle p) 0 len
                  MEM_COMMIT PAGE_READWRITE in
     (buf = 0 ->
        r = inl RemoteAllocFailure /\ count is_write post = 0%nat) /\
     (buf <> 0 ->
        exists rest,
          post = WriteProcessMemory (handle p) buf (path lib) len :: rest)) /\
  (is_write c = true ->
     exists before buf ok n,
       pre = before ++ [request] /\
       buf = os_VirtualAllocEx os before (handle p) 0 len
               MEM_COMMIT PAGE_READWRITE /\
       buf <> 0 /\
       c = WriteProcessMemory (handle p) buf (path lib) len /\
       os_WriteProcessMemory os pre (handle p) buf (path lib) len = (ok, n) /\
       (ok = 0 \/ n <> len ->
          r = inl RemoteWriteFailure /\
          post = [VirtualFreeEx (handle p) buf 0 MEM_RELEASE]) /\
       (ok <> 0 /\ n = len ->
          exists rest,
            post = FlushInstructionCache (handle p) buf len :: rest)) /\
  (forall h a,
     loader_resolved os h a ->
     ext_ModuleInjectedW os
       [GetModuleHandleW "kernel32"; GetProcAddress h "LoadLibraryW"]
       (handle p) (ntFilename lib) = 0 ->
     exists rest,
       tr = [GetModuleHandleW "kernel32"; GetProcAddress h "LoadLibraryW";
             ModuleInjectedW (handle p) (ntFilename lib); request] ++ rest).
Proof.
  intros Hfit Hrun Htr. cbv zeta.
  rewrite <- (LibPathLen_exact os lib Hfit). revert Hrun.
  all_paths; intros Hrun; injection Hrun as <- <-.
  all: split; [|split].
  all: lazymatch goal with
       | |- is_alloc _ = true -> _ => intros Hc; locate is_alloc Htr
       | |- is_write _ = true -> _ => intros Hc; locate is_write Htr
       | |- _ =>
           intros h a Hres Habsent;
           unfold loader_resolved, export_found in Hres; cbn [app] in Hres;
           destruct Hres as (<- & Hh & <- & Ha);
           apply Z.eqb_neq in Hh, Ha; apply Z.eqb_eq in Habsent;
           try congruence;
           try (match goal with
                | H : negb _ = true |- _ =>
                    rewrite Habsent in H; discriminate H
                end);
           eexists; reflexivity
       end.
  all: repeat match goal with
       | H : (os_VirtualAllocEx _ _ _ _ _ _ _ =? 0) = true |- _ =>
           apply Z.eqb_eq in H
       | H : (os_VirtualAllocEx _ _ _ _ _ _ _ =? 0) = false |- _ =>
           apply Z.eqb_neq in H
       end.
  all: lazymatch goal with
       | |- _ = VirtualAllocEx _ _ _ _ _ /\ _ =>
           split; [reflexivity|]; split; [eexists; reflexivity|];
           cbv zeta; split; intros Hbuf; try congruence;
           first [ split; reflexivity | eexists; reflexivity ]
       | |- _ => idtac
       end.
  all: match goal with
       | |- exists before buf ok n, ?l = _ /\ _ =>
           exists (removelast l)
       end;
       eexists _, _, _; split; [reflexivity|]; split; [reflexivity|];
       split; [assumption|]; split; [reflexivity|]; split; [eassumption|].
  all: match goal with
       | H : (_ =? 0) || negb (_ =? _) = true |- _ =>
           split; [intros _; split; reflexivity|];
           apply orb_true_iff in H; rewrite negb_true_iff in H;
           rewrite Z.eqb_eq, Z.eqb_neq in H; tauto
       | H : (_ =? 0) || negb (_ =? _) = false |- _ =>
           split; [|intros _; eexists; reflexivity];
           apply orb_false_iff in H; rewrite negb_false_iff in H;
           rewrite Z.eqb_eq, Z.eqb_neq in H; tauto
       end.
Qed.

Lemma inject_exact_write_witness :
  result (run (inject (world short_write) target hook false)) =
    inl RemoteWriteFailure /\
  exists rest,
    [WriteProcessMemory 300 655360 "C:\hook.dll" 24;
     VirtualFreeEx 300 655360 0 MEM_RELEASE] =
    WriteProcessMemory (handle target) 655360 (path hook) 24 :: rest.
Proof.
  split.
  - destruct (proj1 (proj2 (inject_exact_write (world short_write) target
                hook false _ _ (firstn 4 until_wait) _ _ ltac:(reflexivity)
                eq_refl eq_refl)) eq_refl)
      as (before & buf & ok & n & _ & _ & _ & _ & Hw & Hfail & _).
    cbn in Hw. injection Hw as <- <-.
    apply Hfail. right. discriminate.
  - destruct (proj1 (inject_exact_write (world short_write) target
                hook false _ _ (firstn 3 until_wait) _ _ ltac:(reflexivity)
                eq_refl eq_refl) eq_refl)
      as (_ & _ & _ & Hgranted).
    apply Hgranted. discriminate.
Defined.

(** ** Suspend and resume *)

(** C7: once ntdll and the export are found, [suspend true] calls the
    address resolved for NtSuspendProcess and [suspend false] the one
    resolved for NtResumeProcess, on the handle of the process; a negative
    status raises [SuspendResumeFailure] with that very status, any other
    status returns normally. *)
Theorem suspend_status (os : OS) (p : Process) (flag : bool) (h f : Z) :
  let name := if flag then "NtSuspendProcess" else "NtResumeProcess" in
  let status :=
    os_CallNtProc os [GetModuleHandleW "ntdll"; GetProcAddress h name]
      f (handle p) in
  export_found os [] "ntdll" name h f ->
  trace (run (suspend os p flag)) =
    [GetModuleHandleW "ntdll"; GetProcAddress h name;
     CallNtProc f (handle p)] /\
  (status < 0 ->
     result (run (suspend os p flag)) = inl (SuspendResumeFailure status)) /\
  (0 <= status -> result (run (suspend os p flag)) = inr tt).
Proof.
  intros name status (Hh & Hh0 & Hf & Hf0). subst name status.
  cbn [app] in Hf. apply Z.eqb_neq in Hh0, Hf0. subst h.
  unfold_M. tidy. rewrite Hh0. tidy.
  destruct flag; tidy; subst f; rewrite Hf0; tidy; unfold NT_SUCCESS.
  all: match goal with
       | |- context [?s >=? 0] => destruct (Z.geb_spec s 0)
       end; tidy.
  all: split; [reflexivity|]; split; intros Hs; (reflexivity || lia).
Qed.

Lemma suspend_status_witness :
  result (run (suspend (world access_denied) target true)) =
    inl (SuspendResumeFailure (-1073741790)) /\
  result (run (suspend (world calm) target false)) = inr tt.
Proof.
  split.
  - apply (suspend_status (world access_denied) target true ntdll_base
             (ntdll_base + 4096)); [repeat split; discriminate | reflexivity].
  - apply (suspend_status (world calm) target false ntdll_base
             (ntdll_base + 4096)); [repeat split; discriminate | reflexivity].
Defined.

(** ** Bitness *)

(** C8: on a 64-bit host, once the query export is found, [is64bit]
    returns true exactly when the query reports that the process is not
    under WOW64, and raises [ArchitectureDetectionFailure] when the query
    itself fails; on a 32-bit host it returns false after reading the
    system information only; on any other host it raises
    [ArchitectureDetectionFailure] with the pid. *)
Theorem is64bit_cases (os : OS) (p : Process) :
  let host := ext_MyGetSystemInfo os [] in
  (host = PROCESSOR_ARCHITECTURE_AMD64 ->
   forall h f ok isWow64,
     export_found os [MyGetSystemInfo] "kernel32" "IsWow64Process" h f ->
     os_CallIsWow64 os
       [MyGetSystemInfo; GetModuleHandleW "kernel32";
        GetProcAddress h "IsWow64Process"] f (handle p) = (ok, isWow64) ->
     trace (run (is64bit os p)) =
       [MyGetSystemInfo; GetModuleHandleW "kernel32";
        GetProcAddress h "IsWow64Process"; CallIsWow64 f (handle p)] /\
     (ok <> 0 ->
        result (run (is64bit os p)) = inr (negb (BOOL_true isWow64))) /\
     (ok = 0 ->
        result (run (is64bit os p)) = inl ArchitectureDetectionFailure_query)) /\
  (host = PROCESSOR_ARCHITECTURE_INTEL ->
     run (is64bit os p) = (inr false, [MyGetSystemInfo])) /\
  (host <> PROCESSOR_ARCHITECTURE_AMD64 ->
   host <> PROCESSOR_ARCHITECTURE_INTEL ->
     run (is64bit os p) =
       (inl (ArchitectureDetectionFailure_unknown p), [MyGetSystemInfo])).
Proof.
  cbv zeta. split; [|split].
  - intros Hhost h f ok w (Hh & Hh0 & Hf & Hf0) Hq. cbn [app] in Hf.
    apply Z.eqb_eq in Hhost. apply Z.eqb_neq in Hh0, Hf0. subst h f.
    unfold_M. tidy. rewrite Hhost. tidy. rewrite Hh0. tidy.
    rewrite Hf0. tidy. rewrite Hq. tidy.
    destruct (ok =? 0) eqn:E; tidy.
    + apply Z.eqb_eq in E. repeat split; congruence.
    + apply Z.eqb_neq in E.
      split; [reflexivity|]. split; [|congruence].
      intros _. unfold result, BOOL_true. cbn.
      destruct (w =? 0); reflexivity.
  - intros Hhost. unfold_M. tidy. rewrite Hhost. reflexivity.
  - intros H1 H2. apply Z.eqb_neq in H1, H2.
    unfold_M. tidy. rewrite H1. tidy. rewrite H2. reflexivity.
Qed.

Lemma is64bit_cases_witness :
  result (run (is64bit (world calm) target)) = inr true /\
  result (run (is64bit (world wow64_target) target)) = inr false /\
  result (run (is64bit (world wow64_query_fails) target)) =
    inl ArchitectureDetectionFailure_query /\
  run (is64bit (world host_x86) target) = (inr false, [MyGetSystemInfo]) /\
  run (is64bit (world host_arm64) target) =
    (inl (ArchitectureDetectionFailure_unknown target), [MyGetSystemInfo]).
Proof.
  split; [|split; [|split; [|split]]].
  - refine (proj1 (proj2 (proj1 (is64bit_cases (world calm) target) eq_refl
      kernel32_base (kernel32_base + 4096) 1 0 _ eq_refl)) _);
      [repeat split; discriminate | discriminate].
  - refine (proj1 (proj2 (proj1 (is64bit_cases (world wow64_target) target)
      eq_refl kernel32_base (kernel32_base + 4096) 1 1 _ eq_refl)) _);
      [repeat split; discriminate | discriminate].
  - refine (proj2 (proj2 (proj1 (is64bit_cases (world wow64_query_fails)
      target) eq_refl kernel32_base (kernel32_base + 4096) 0 0
      _ eq_refl)) eq_refl); repeat split; discriminate.
  - exact (proj1 (proj2 (is64bit_cases (world host_x86) target)) eq_refl).
  - apply (proj2 (proj2 (is64bit_cases (world host_arm64) target)));
      discriminate.
Defined.

(** The constructor of the kernel32 facade leaves a callable query. *)
Lemma ModuleKernel32_new_bound (os : OS) (k : ModuleKernel32) (tr : Trace) :
  run (ModuleKernel32_new os) = (inr k, tr) -> isWow64Process_ k <> 0.
Proof.
  unfold ModuleKernel32_new. all_paths; intros H; try discriminate H.
  all: injection H as <- <-; cbn; apply Z.eqb_neq; assumption.
Qed.

(** C10: with the query bound, [ModuleKernel32::isWow64Process] returns
    the negation of what the WOW64 query reports (true exactly when the
    process is reported not to run under WOW64), and when the query call
    fails it raises an error that carries the process and the last OS
    error code. *)
Theorem isWow64Process_negates (os : OS) (k : ModuleKernel32)
    (proc : Process) (t : Trace) (ok isWow64 : Z) :
  isWow64Process_ k <> 0 ->
  os_CallIsWow64 os t (isWow64Process_ k) (handle proc) = (ok, isWow64) ->
  (ok <> 0 ->
     isWow64Process os k proc t =
       (inr (negb (BOOL_true isWow64)),
        [CallIsWow64 (isWow64Process_ k) (handle proc)])) /\
  (ok = 0 ->
     isWow64Process os k proc t =
       (inl (Wow64QueryFailure proc
               (os_GetLastError os
                  (t ++ [CallIsWow64 (isWow64Process_ k) (handle proc)]))),
        [CallIsWow64 (isWow64Process_ k) (handle proc); GetLastError])).
Proof.
  intros Hbound Hq. apply Z.eqb_neq in Hbound.
  unfold_M. rewrite Hbound. tidy. rewrite Hq. tidy.
  split; intros Hok.
  - apply Z.eqb_neq in Hok. rewrite Hok. unfold BOOL_true.
    rewrite negb_involutive. reflexivity.
  - apply Z.eqb_eq in Hok. rewrite Hok. reflexivity.
Qed.

Lemma isWow64Process_negates_witness :
  run (isWow64Process (world wow64_target) kernel32_facade target) =
    (inr false, [CallIsWow64 (kernel32_base + 4096) 300]) /\
  run (isWow64Process (world calm) kernel32_facade target) =
    (inr true, [CallIsWow64 (kernel32_base + 4096) 300]) /\
  run (isWow64Process (world wow64_query_fails) kernel32_facade target) =
    (inl (Wow64QueryFailure target 127),
     [CallIsWow64 (kernel32_base + 4096) 300; GetLastError]).
Proof.
  split; [|split].
  - refine (proj1 (isWow64Process_negates (world wow64_target)
      kernel32_facade target [] 1 1 _ eq_refl) _); discriminate.
  - refine (proj1 (isWow64Process_negates (world calm)
      kernel32_facade target [] 1 0 _ eq_refl) _); discriminate.
  - refine (proj2 (isWow64Process_negates (world wow64_query_fails)
      kernel32_facade target [] 0 0 _ eq_refl) eq_refl); discriminate.
Defined.

(** * Further properties *)

(** ** More of the injection protocol *)

(** X1: [verbose] only adds the diagnostic record: the outcome is the same,
    and so are the calls once the record is left out. *)
Theorem inject_verbose_only_reports (os : OS) (p : Process) (lib : Library) :
  result (run (inject os p lib true)) = result (run (inject os p lib false)) /\
  without_reports (trace (run (inject os p lib true))) =
    trace (run (inject os p lib false)).
Proof.
  all_paths; split; reflexivity.
Qed.

(** ** Cutting traces *)

Lemma splits_complete (tr pre post : Trace) (x : Call) :
  tr = pre ++ x :: post -> In (pre, x, post) (splits tr).
Proof.
  intros ->. induction pre as [|c pre IH]; cbn [app splits].
  - now left.
  - right. apply (in_map (fun s => match s with
                                   | (pre, x, post) => (c :: pre, x, post)
                                   end) _ _ IH).
Qed.

(** Go through every position of a concrete trace. *)
Ltac every_cut H :=
  apply splits_complete in H; cbn in H;
  repeat match type of H with
         | _ \/ _ => destruct H as [H | H]
         | False => contradiction
         end;
  injection H as <- <- <-.

Ltac unfold_more :=
  unfold ModuleKernel32_new, ModuleNtdll_new, ntSuspendProcess,
    ntResumeProcess, nt_process_call, ex_message.

(** X2: a diagnostic record is emitted only by a verbose run that succeeds,
    after the wait and the two header reads, and only the release of the
    buffer follows it; it names the library and the pid, its base is the
    non-null address the second presence check returned, and its exit code
    is the one the wait returned. *)
Theorem inject_report_on_success (os : OS) (p : Process) (lib : Library)
    (verbose : bool) (r : Exn + unit) (tr pre post : Trace) (c : Call) :
  run (inject os p lib verbose) = (r, tr) ->
  tr = pre ++ c :: post ->
  is_report c = true ->
  verbose = true /\ r = inr tt /\
  count is_wait pre = 1%nat /\ count is_read pre = 2%nat /\
  count is_free post = 1%nat /\ List.length post = 1%nat /\
  exists rep,
    c = wprintf rep /\
    r_name rep = ntFilename lib /\ r_pid rep = id p /\ r_base rep <> 0 /\
    (forall before th after,
       pre = before ++ Thread_waitForTermination th :: after ->
       ext_waitForTermination os before th = inr (r_exit rep) /\
       ext_ModuleInjectedW os (before ++ [Thread_waitForTermination th])
         (handle p) (ntFilename lib) = r_base rep).
Proof.
  intros Hrun Htr Hc. revert Hrun.
  all_paths; intros Hrun; injection Hrun as <- <-; locate is_report Htr.
  repeat split.
  eexists; split; [reflexivity|]. cbn.
  repeat split.
  - match goal with
    | H : negb (?x =? 0) = true |- ?x <> 0 =>
        apply negb_true_iff, Z.eqb_neq in H; exact H
    end.
  - locate is_wait H. assumption.
  - locate is_wait H. reflexivity.
Qed.

(** X4: the cache flush covers what was just written, the same buffer and the
    same length; when it fails [inject] raises [CacheFlushFailure] and only
    the release of the buffer follows, and when it succeeds the next call
    creates the remote thread. *)
Theorem inject_flush (os : OS) (p : Process) (lib : Library)
    (verbose : bool) (r : Exn + unit) (tr pre post : Trace) (c : Call) :
  run (inject os p lib verbose) = (r, tr) ->
  tr = pre ++ c :: post ->
  is_flush c = true ->
  exists buf before,
    buf <> 0 /\
    c = FlushInstructionCache (handle p) buf (LibPathLen os lib) /\
    pre = before ++
      [WriteProcessMemory (handle p) buf (path lib) (LibPathLen os lib)] /\
    (os_FlushInstructionCache os pre (handle p) buf (LibPathLen os lib) = 0 ->
       r = inl CacheFlushFailure /\
       post = [VirtualFreeEx (handle p) buf 0 MEM_RELEASE]) /\
    (os_FlushInstructionCache os pre (handle p) buf (LibPathLen os lib) <> 0 ->
       exists start rest,
         post = createRemoteThread (handle p) 0 0 start buf 0 :: rest).
Proof.
  intros Hrun Htr Hc. revert Hrun.
  all_paths; intros Hrun; injection Hrun as <- <-; locate is_flush Htr.
  all: match goal with
       | |- context [FlushInstructionCache _ ?b _] => exists b
       end;
       match goal with
       | |- exists before, _ /\ _ /\ ?l = _ /\ _ => exists (removelast l)
       end; split;
    [apply Z.eqb_neq; assumption|].
  all: split; [reflexivity|]; split; [reflexivity|].
  all: match goal with
       | H : (os_FlushInstructionCache _ _ _ _ _ =? 0) = true |- _ =>
           apply Z.eqb_eq in H
       | H : (os_FlushInstructionCache _ _ _ _ _ =? 0) = false |- _ =>
           apply Z.eqb_neq in H
       end.
  all: split; intros Hf; try congruence.
  all: try (split; reflexivity).
  all: eexists _, _; reflexivity.
Qed.

(** X5: an exception of a helper (thread creation, priority, debugger
    visibility, wait) comes out of [inject] as it is, after the remote
    buffer is released and nothing else is done; in particular a failure
    after the thread was created ends the run without a wait for that
    thread. *)
Theorem inject_helper_failure (os : OS) (p : Process) (lib : Library)
    (verbose : bool) (r : Exn + unit) (tr pre post : Trace) (c : Call)
    (e : Exn) :
  run (inject os p lib verbose) = (r, tr) ->
  tr = pre ++ c :: post ->
  raised os pre c = Some e ->
  r = inl e /\
  count is_wait pre = 0%nat /\
  count is_thread_create (pre ++ [c]) = 1%nat /\
  exists buf,
    buf <> 0 /\ post = [VirtualFreeEx (handle p) buf 0 MEM_RELEASE].
Proof.
  intros Hrun Htr Hc. revert Hrun.
  all_paths; intros Hrun; injection Hrun as <- <-; every_cut Htr.
  all: cbn in Hc; try discriminate Hc.
  all: repeat match goal with
       | H : _ = inl _ |- _ => rewrite H in Hc
       | H : _ = inr _ |- _ => rewrite H in Hc
       end; try discriminate Hc.
  all: injection Hc as <-.
  all: repeat split;
    match goal with
    | |- context [VirtualFreeEx _ ?b _ _] => exists b
    end; split; [|reflexivity].
  all: apply Z.eqb_neq; assumption.
Qed.

(** X6: whatever [inject] writes to, flushes or hands to the remote thread is
    a non-null buffer, and the same buffer is released later in the run;
    every call on the target is given the handle of the process. *)
Theorem inject_buffer_discipline (os : OS) (p : Process) (lib : Library)
    (verbose : bool) (r : Exn + unit) (tr pre post : Trace) (c : Call) :
  run (inject os p lib verbose) = (r, tr) ->
  tr = pre ++ c :: post ->
  (forall h, target_handle_of c = Some h -> h = handle p) /\
  (forall buf, buffer_of c = Some buf ->
     buf <> 0 /\ In (VirtualFreeEx (handle p) buf 0 MEM_RELEASE) post).
Proof.
  intros Hrun Htr. revert Hrun.
  all_paths; intros Hrun; injection Hrun as <- <-; every_cut Htr.
  all: split; [intros h Hh; cbn in Hh; congruence|].
  all: intros buf Hbuf; cbn in Hbuf; try discriminate Hbuf.
  all: injection Hbuf as <-;
    split; [apply Z.eqb_neq; assumption | cbn; tauto].
Qed.

(** X7: the image headers are read only after the library was found again,
    whether or not the run is verbose: first 64 bytes at the base the
    presence check returned.  If that read fails or is short, [inject]
    raises [RemoteReadFailure] although the library is loaded, and only
    the release of the buffer follows. *)
Theorem inject_header_read (os : OS) (p : Process) (lib : Library)
    (verbose : bool) (r : Exn + unit) (tr pre post : Trace) (c : Call)
    (ok n : Z) (header : DosHeader) :
  run (inject os p lib verbose) = (r, tr) ->
  tr = pre ++ c :: post ->
  is_read c = true ->
  count is_read pre = 0%nat ->
  exists base before,
    base <> 0 /\
    c = ReadProcessMemory (handle p) base sizeof_IMAGE_DOS_HEADER /\
    pre = before ++ [ModuleInjectedW (handle p) (ntFilename lib)] /\
    ext_ModuleInjectedW os before (handle p) (ntFilename lib) = base /\
    count is_wait before = 1%nat /\
    (os_ReadDosHeader os pre (handle p) base sizeof_IMAGE_DOS_HEADER =
       (ok, n, header) ->
     (ok = 0 \/ n <> sizeof_IMAGE_DOS_HEADER ->
        r = inl RemoteReadFailure /\
        exists buf, post = [VirtualFreeEx (handle p) buf 0 MEM_RELEASE]) /\
     (ok <> 0 /\ n = sizeof_IMAGE_DOS_HEADER ->
        exists rest,
          post = ReadProcessMemory (handle p)
                   (ptr_wrap (arch os) (base + e_lfanew header))
                   (sizeof_IMAGE_NT_HEADERS os) :: rest)).
Proof.
  intros Hrun Htr Hc Hfirst. revert Hrun.
  all_paths; intros Hrun; injection Hrun as <- <-; every_cut Htr.
  all: try discriminate Hc; try discriminate Hfirst.
  all: match goal with
       | |- context [ReadProcessMemory _ ?b sizeof_IMAGE_DOS_HEADER = _] =>
           exists b
       end;
       match goal with
       | |- exists before, _ /\ _ /\ ?l = _ /\ _ => exists (removelast l)
       end.
  all: split;
    [match goal with
     | H : negb (_ =? 0) = true |- _ =>
         apply negb_true_iff, Z.eqb_neq in H; exact H
     end|].
  all: repeat (split; [reflexivity|]).
  all: intros Hread;
    match goal with
    | H : os_ReadDosHeader _ _ _ _ _ = _ |- _ =>
        tryif constr_eq H Hread then fail
        else (rewrite Hread in H; injection H as <- <- <-)
    end.
  all: match goal with
       | H : (_ =? 0) || negb (_ =? sizeof_IMAGE_DOS_HEADER) = true |- _ =>
           apply orb_true_iff in H; rewrite negb_true_iff in H;
           rewrite Z.eqb_eq, Z.eqb_neq in H
       | H : (_ =? 0) || negb (_ =? sizeof_IMAGE_DOS_HEADER) = false |- _ =>
           apply orb_false_iff in H; rewrite negb_false_iff in H;
           rewrite Z.eqb_eq, Z.eqb_neq in H
       end.
  all: split; intros Hcase; try tauto.
  all: try (split; [reflexivity | eexists; reflexivity]).
  all: eexists; reflexivity.
Qed.

(** ** More of module.hpp *)

(** X9: with [throwing] left at [true], a lookup in a module of the current
    process never comes back with the null address: it is one
    [GetProcAddress] call whose non-null answer is returned, or an
    exception. *)
Theorem getProcAddress_throwing_nonnull (os : OS) (m : Module)
    (name : string) (a : Z) (tr : Trace) :
  m_process m = current os ->
  run (getProcAddress os m name true) = (inr a, tr) ->
  a <> 0 /\ a = os_GetProcAddress os [] (m_handle m) name /\
  tr = [GetProcAddress (m_handle m) name].
Proof.
  intros Hown. rewrite getProcAddress_current by exact Hown.
  unfold run. rewrite getProcAddress_direct_eq.
  destruct (os_GetProcAddress os [] (m_handle m) name =? 0) eqn:E;
    intros H; [discriminate H|].
  injection H as <- <-. apply Z.eqb_neq in E. repeat split. exact E.
Qed.

(** X10: a lookup in a module of another process loads at most one probe copy,
    by the path of the module and without resolving its references; a probe
    copy that loaded is freed exactly once, as the last call of the lookup,
    also when the lookup raises; every export lookup in between is made in
    the probe copy; and when the probe copy does not load, nothing is
    looked up or freed. *)
Theorem getProcAddress_probe_released (os : OS) (m : Module) (name : string)
    (throwing : bool) (r : Exn + Z) (tr pre post : Trace) (c : Call) :
  Process_eqb (m_process m) (current os) = false ->
  run (getProcAddress os m name throwing) = (r, tr) ->
  tr = pre ++ c :: post ->
  is_library_load c = true ->
  exists file,
    ext_Module_path os [] m = inr file /\
    pre = [Module_path m] /\
    c = LoadLibraryExW file DONT_RESOLVE_DLL_REFERENCES /\
    let probe := os_LoadLibraryExW os pre file DONT_RESOLVE_DLL_REFERENCES in
    (probe = 0 ->
       count is_lookup post = 0%nat /\ count is_library_free post = 0%nat) /\
    (probe <> 0 ->
       exists between,
         post = between ++ [FreeLibrary probe] /\
         count is_library_free between = 0%nat /\
         count is_library_load between = 0%nat /\
         forall x, In x between -> is_lookup x = true ->
                   x = GetProcAddress probe name).
Proof.
  intros Hrem Hrun Htr Hc. revert Hrun.
  unfold_M. rewrite Hrem. tidy. repeat (case_answer; tidy).
  all: intros Hrun; injection Hrun as <- <-; locate is_library_load Htr.
  all: try match goal with
           | H : (0 =? 0) = false |- _ =>
               rewrite Z.eqb_refl in H; discriminate H
           end.
  all: eexists; split; [reflexivity|]; split; [reflexivity|];
    split; [reflexivity|]; cbv zeta.
  all: match goal with
       | H : (os_LoadLibraryExW _ _ _ _ =? 0) = true |- _ =>
           apply Z.eqb_eq in H
       | H : (os_LoadLibraryExW _ _ _ _ =? 0) = false |- _ =>
           apply Z.eqb_neq in H
       end.
  all: split; intros Hp; try congruence.
  all: try (split; reflexivity).
  all: match goal with
       | |- exists between, ?l = _ /\ _ => exists (removelast l)
       end; repeat split.
  all: cbn; intros x Hx Hl;
    repeat match type of Hx with
           | _ \/ _ => destruct Hx as [Hx | Hx]
           | False => contradiction
           end; subst x; (reflexivity || discriminate Hl).
Qed.

(** X12: [load]: with [throwing = false] it never raises and hands out a null
    module, which owns nothing, exactly when the library did not load; a
    module it hands out with [throwing = true] is never null; a loaded
    module holds the handle of the library, belongs to the current process
    and frees the library on destruction exactly when asked to. *)
Theorem load_result (os : OS) (name : string) (flags : Z)
    (freeOnDestruction throwing : bool) (t : Trace) :
  let h := os_LoadLibraryExW os t name flags in
  (h <> 0 ->
     load os name flags freeOnDestruction throwing t =
       (inr (mkModule h (current os) freeOnDestruction),
        [LoadLibraryExW name flags]) /\
     Module_release (mkModule h (current os) freeOnDestruction) =
       if freeOnDestruction then [FreeLibrary h] else []) /\
  (h = 0 -> throwing = false ->
     load os name flags freeOnDestruction throwing t =
       (inr Module_null, [LoadLibraryExW name flags]) /\
     Module_release Module_null = []) /\
  (h = 0 -> throwing = true ->
     load os name flags freeOnDestruction throwing t =
       (inl (ex ex_get_module_handle
               << e_api_function "LoadLibraryEx"
               << e_text ("could not load module '" ++ name
                            ++ "' locally")%string
               << e_last_error
                    (os_GetLastError os (t ++ [LoadLibraryExW name flags]))),
        [LoadLibraryExW name flags; GetLastError])).
Proof.
  cbv zeta. unfold load, bind, sys, throw, ret. cbn.
  destruct (os_LoadLibraryExW os t name flags =? 0) eqn:E.
  - apply Z.eqb_eq in E. split; [congruence|].
    split; intros _ ->; [split|]; reflexivity.
  - apply Z.eqb_neq in E. split; [|split; congruence].
    intros _. split; [reflexivity|]. destruct freeOnDestruction; reflexivity.
Qed.

(** X11: with [throwing = false] a failed lookup yields the null address
    without an exception in two cases: the module belongs to the current
    process and the export is not found, or the module belongs to another
    process and its probe copy does not load (no export is then looked up
    and nothing is freed). *)
Theorem getProcAddress_nothrow_null (os : OS) (m : Module) (name : string) :
  (m_process m = current os ->
   os_GetProcAddress os [] (m_handle m) name = 0 ->
   run (getProcAddress os m name false) =
     (inr 0, [GetProcAddress (m_handle m) name])) /\
  (forall file,
     Process_eqb (m_process m) (current os) = false ->
     ext_Module_path os [] m = inr file ->
     os_LoadLibraryExW os [Module_path m] file DONT_RESOLVE_DLL_REFERENCES
       = 0 ->
     run (getProcAddress os m name false) =
       (inr 0,
        [Module_path m; LoadLibraryExW file DONT_RESOLVE_DLL_REFERENCES])).
Proof.
  split.
  - apply getProcAddress_nothrow_direct.
  - intros file. apply getProcAddress_nothrow_probe_unloadable.
Qed.

(** ** The facades *)

(** X13: the kernel32 facade needs [IsWow64Process] and only that: once it is
    found, the constructor succeeds whatever the lookup of
    [GetNativeSystemInfo] answers, the null address included, which it
    keeps as it is. *)
Theorem ModuleKernel32_new_optional (os : OS) (h f : Z) :
  export_found os [] "kernel32" "IsWow64Process" h f ->
  run (ModuleKernel32_new os) =
    (inr (mkKernel32 (mkModule h (current os) false) f
            (os_GetProcAddress os
               [GetModuleHandleW "kernel32"; GetProcAddress h "IsWow64Process"]
               h "GetNativeSystemInfo")),
     [GetModuleHandleW "kernel32"; GetProcAddress h "IsWow64Process";
      GetProcAddress h "GetNativeSystemInfo"]).
Proof.
  intros Hf. unfold export_found in Hf. cbn [app] in Hf.
  destruct Hf as (<- & Hh & <- & Hf). apply Z.eqb_neq in Hh, Hf.
  unfold_more. unfold_M. tidy. rewrite Hh. tidy. rewrite Hf. tidy.
  destruct (os_GetProcAddress os _ _ "GetNativeSystemInfo" =? 0) eqn:E; tidy.
  - apply Z.eqb_eq in E. rewrite E. reflexivity.
  - reflexivity.
Qed.

(** X14: a facade that its constructor handed out always makes the query: the
    call through the bound export is never refused as an empty
    [std::function]. *)
Theorem ModuleKernel32_query_callable (os : OS) (k : ModuleKernel32)
    (tr : Trace) (proc : Process) (t : Trace) :
  run (ModuleKernel32_new os) = (inr k, tr) ->
  isWow64Process_ k <> 0 /\
  m_process (k_module k) = current os /\
  exists rest,
    snd (isWow64Process os k proc t) =
      CallIsWow64 (isWow64Process_ k) (handle proc) :: rest.
Proof.
  intros Hk.
  assert (Hbound : isWow64Process_ k <> 0 /\
                   m_process (k_module k) = current os).
  { revert Hk. unfold_more. all_paths; intros H; try discriminate H.
    all: injection H as <- <-; cbn; split; [|reflexivity].
    all: apply Z.eqb_neq; assumption. }
  destruct Hbound as [Hbound Hown]. split; [exact Hbound|].
  split; [exact Hown|].
  apply Z.eqb_neq in Hbound. unfold_M. rewrite Hbound. tidy.
  destruct (os_CallIsWow64 os t (isWow64Process_ k) (handle proc))
    as [ok w]. tidy.
  destruct (ok =? 0); tidy; eexists; reflexivity.
Qed.

(** X15: the ntdll facade needs all three exports: a facade that its
    constructor handed out was built by the lookup of ntdll followed by
    the lookups of NtResumeProcess, NtSuspendProcess and
    NtSetInformationThread, in this order, and none of the three bound
    addresses is null. *)
Theorem ModuleNtdll_new_bound (os : OS) (n : ModuleNtdll) (tr : Trace) :
  run (ModuleNtdll_new os) = (inr n, tr) ->
  let h := m_handle (n_module n) in
  h <> 0 /\ m_process (n_module n) = current os /\
  ntResumeProcess_ n <> 0 /\ ntSuspendProcess_ n <> 0 /\
  ntSetInformationThread_ n <> 0 /\
  tr = [GetModuleHandleW "ntdll"; GetProcAddress h "NtResumeProcess";
        GetProcAddress h "NtSuspendProcess";
        GetProcAddress h "NtSetInformationThread"].
Proof.
  unfold_more. all_paths; intros H; try discriminate H.
  injection H as <- <-. cbn.
  repeat split; apply Z.eqb_neq; assumption.
Qed.

(** X16: the constructor of the ntdll facade fails in two ways only: ntdll is
    not found (the lookup error of the module, after two calls), or one of
    the three exports is not found (the resolution failure of that export,
    raised right after its lookup; nothing is looked up after it). *)
Theorem ModuleNtdll_new_failure (os : OS) (e : Exn) (tr : Trace) :
  run (ModuleNtdll_new os) = (inl e, tr) ->
  (exists code,
     e = ModuleLookupFailure "ntdll" code /\
     tr = [GetModuleHandleW "ntdll"; GetLastError]) \/
  (exists name code before,
     In name ["NtResumeProcess"; "NtSuspendProcess";
              "NtSetInformationThread"] /\
     e = ProcAddressResolutionFailure name code /\
     os_GetModuleHandleW os [] "ntdll" <> 0 /\
     tr = before ++
          [GetProcAddress (os_GetModuleHandleW os [] "ntdll") name;
           GetLastError]).
Proof.
  unfold_more. all_paths; intros H; try discriminate H.
  all: injection H as <- <-.
  1: left; eexists; split; reflexivity.
  all: right;
    match goal with
    | |- exists name code before, _ /\ _ /\ _ /\ ?l = _ =>
        let n := eval cbn in
          (match last (removelast l) GetLastError with
           | GetProcAddress _ name => name
           | _ => ""
           end) in
        exists n; eexists; exists (removelast (removelast l))
    end.
  all: split; [cbn; tauto|]; split; [reflexivity|];
    split; [apply Z.eqb_neq; assumption | reflexivity].
Qed.

(** X17: through a facade that its constructor handed out, a suspend or resume
    is one native call on the handle of the process through the bound
    export; a negative status raises an error that carries the process,
    the name of the API and that status, any other status returns. *)
Theorem ModuleNtdll_calls (os : OS) (n : ModuleNtdll) (tr : Trace)
    (proc : Process) (t : Trace) :
  run (ModuleNtdll_new os) = (inr n, tr) ->
  let suspended := os_CallNtProc os t (ntSuspendProcess_ n) (handle proc) in
  let resumed := os_CallNtProc os t (ntResumeProcess_ n) (handle proc) in
  ntSuspendProcess os n proc t =
    (if suspended <? 0 then
       inl (ex_message "could not suspend process" << e_process proc
              << e_api_function "NtSuspendProcess" << e_nt_status suspended)
     else inr tt,
     [CallNtProc (ntSuspendProcess_ n) (handle proc)]) /\
  ntResumeProcess os n proc t =
    (if resumed <? 0 then
       inl (ex_message "could not resume process" << e_process proc
              << e_api_function "NtResumeProcess" << e_nt_status resumed)
     else inr tt,
     [CallNtProc (ntResumeProcess_ n) (handle proc)]).
Proof.
  intros Hn. cbv zeta.
  assert (Hb : ntSuspendProcess_ n <> 0 /\ ntResumeProcess_ n <> 0).
  { revert Hn. unfold_more. all_paths; intros H; try discriminate H.
    injection H as <- <-. cbn. split; apply Z.eqb_neq; assumption. }
  destruct Hb as [Hs Hr]. apply Z.eqb_neq in Hs, Hr.
  unfold ntSuspendProcess, ntResumeProcess, nt_process_call, NT_SUCCESS.
  unfold_M. rewrite Hs, Hr. tidy.
  split.
  - destruct (Z.geb_spec (os_CallNtProc os t (ntSuspendProcess_ n)
                            (handle proc)) 0) as [H|H];
      destruct (Z.ltb_spec (os_CallNtProc os t (ntSuspendProcess_ n)
                              (handle proc)) 0); try lia; reflexivity.
  - destruct (Z.geb_spec (os_CallNtProc os t (ntResumeProcess_ n)
                            (handle proc)) 0) as [H|H];
      destruct (Z.ltb_spec (os_CallNtProc os t (ntResumeProcess_ n)
                              (handle proc)) 0); try lia; reflexivity.
Qed.

(** ** More of process.cpp *)

(** X18: [suspend] makes at most one native call, always through a non-null
    address and on the handle of the process, as its last call; it returns
    normally only after such a call, and raises [SuspendResumeFailure]
    only after such a call: when ntdll or the export is not found, the
    error is the one of the lookup and the process is left alone. *)
Theorem suspend_single_call (os : OS) (p : Process) (flag : bool)
    (r : Exn + unit) (tr : Trace) :
  run (suspend os p flag) = (r, tr) ->
  (count is_native_call tr <= 1)%nat /\
  count is_library_load tr = 0%nat /\
  (forall pre c post,
     tr = pre ++ c :: post -> is_native_call c = true ->
     exists f, f <> 0 /\ c = CallNtProc f (handle p) /\ post = []) /\
  (r = inr tt -> count is_native_call tr = 1%nat) /\
  (forall status,
     r = inl (SuspendResumeFailure status) ->
     count is_native_call tr = 1%nat).
Proof.
  all_paths; intros Hrun; injection Hrun as <- <-.
  all: split; [cbn; lia|]; split; [reflexivity|].
  all: split;
    [|split; [intros H | intros status H]; (reflexivity || discriminate H)].
  all: intros pre c post Htr Hc; locate is_native_call Htr.
  all: match goal with
       | |- context [CallNtProc ?x _] => exists x
       end; split; [|split; reflexivity].
  all: apply Z.eqb_neq; assumption.
Qed.

(** X19: [is64bit] answers true only on an AMD64 host whose WOW64 query
    succeeded and reported no WOW64; on every other host it makes no query
    at all and reads the system information only (an ARM64 host, for one,
    gets an error); a query, when made, goes through a non-null address
    and is the last call. *)
Theorem is64bit_only_amd64 (os : OS) (p : Process) (r : Exn + bool)
    (tr : Trace) :
  run (is64bit os p) = (r, tr) ->
  (ext_MyGetSystemInfo os [] <> PROCESSOR_ARCHITECTURE_AMD64 ->
     tr = [MyGetSystemInfo] /\ r <> inr true) /\
  (forall pre c post,
     tr = pre ++ c :: post -> is_wow64_query c = true ->
     exists f, f <> 0 /\ c = CallIsWow64 f (handle p) /\ post = [] /\
       (r = inr true <->
        exists ok, ok <> 0 /\
                   os_CallIsWow64 os pre f (handle p) = (ok, 0))) /\
  (r = inr true -> count is_wow64_query tr = 1%nat).
Proof.
  all_paths; intros Hrun; injection Hrun as <- <-.
  all: split;
    [intros Hhost;
     first [ match goal with
             | H : (_ =? PROCESSOR_ARCHITECTURE_AMD64) = true |- _ =>
                 apply Z.eqb_eq in H; congruence
             end
           | split; [reflexivity | discriminate] ]|].
  all: split; [|intros H; (reflexivity || discriminate H)].
  all: intros pre c post Htr Hc; locate is_wow64_query Htr.
  all: match goal with
       | |- context [CallIsWow64 ?x _] => exists x
       end; split; [apply Z.eqb_neq; assumption|];
    split; [reflexivity|]; split; [reflexivity|].
  all: match goal with
       | H : os_CallIsWow64 _ _ _ _ = _ |- _ => rewrite H
       end.
  all: split;
    [intros H; try discriminate H
    |intros (ok & Hok & Heq); injection Heq as Hz Hw].
  all: repeat match goal with
       | H : (_ =? 0) = true |- _ => apply Z.eqb_eq in H
       | H : (_ =? 0) = false |- _ => apply Z.eqb_neq in H
       | H : negb (_ =? 0) = true |- _ =>
           apply negb_true_iff, Z.eqb_neq in H
       | H : negb (_ =? 0) = false |- _ =>
           apply negb_false_iff, Z.eqb_eq in H
       end.
  all: try congruence.
  subst. eexists; split; [eassumption | reflexivity].
Qed.

(** X20: the size of the remote buffer always has room for the terminator and
    is a whole number of characters: for a path that fits the address
    space it is at least one character and is even; an empty path gives
    the size of one character. *)
Theorem LibPathLen_bounds (os : OS) (lib : Library) :
  0 <= LibPathLen os lib < 2 ^ ptr_bits (arch os) /\
  LibPathLen os lib mod sizeof_wchar_t = 0 /\
  ((wcslen (path lib) + 1) * sizeof_wchar_t < 2 ^ ptr_bits (arch os) ->
     sizeof_wchar_t <= LibPathLen os lib) /\
  (path lib = "" -> LibPathLen os lib = sizeof_wchar_t).
Proof.
  pose proof (wcslen_nonneg (path lib)) as Hlen.
  split; [|split; [|split]].
  - unfold LibPathLen, ptr_wrap. apply Z.mod_pos_bound.
    destruct (arch os); reflexivity.
  - unfold LibPathLen, ptr_wrap, sizeof_wchar_t.
    assert (H : 2 ^ ptr_bits (arch os) = 2 * 2 ^ (ptr_bits (arch os) - 1)).
    { destruct (arch os); reflexivity. }
    rewrite H.
    rewrite (Z.mul_comm (wcslen (path lib) + 1) 2).
    rewrite Zmult_mod_distr_l. rewrite Z.mul_comm. apply Z_mod_mult.
  - intros Hfit. rewrite (LibPathLen_exact os lib Hfit).
    unfold sizeof_wchar_t. lia.
  - intros Hp. unfold LibPathLen, ptr_wrap. rewrite Hp. cbn [wcslen].
    destruct (arch os); reflexivity.
Qed.

(** X21: [open] hands out a process only with a non-null handle: the one
    [OpenProcess] returned for (access, inherit, pid), under the pid that
    was asked for; a null handle becomes [HandleOpenFailure] with the pid.
    A process that [open] handed out is suspended or resumed through that
    very handle. *)
Theorem open_then_suspend (OpenProcess : Z -> bool -> Z -> Z) (pid : Z)
    (inheritHandle : bool) (desiredAccess : Z) (os : OS) (flag : bool) :
  let answer := OpenProcess desiredAccess inheritHandle pid in
  (answer = 0 ->
     open OpenProcess pid inheritHandle desiredAccess =
       inl (HandleOpenFailure pid)) /\
  (answer <> 0 ->
     open OpenProcess pid inheritHandle desiredAccess =
       inr (mkProcess pid answer) /\
     forall pre c post,
       trace (run (suspend os (mkProcess pid answer) flag)) =
         pre ++ c :: post ->
       forall h, target_handle_of c = Some h -> h = answer /\ h <> 0).
Proof.
  cbv zeta. unfold open. cbn [handle].
  destruct (OpenProcess desiredAccess inheritHandle pid =? 0) eqn:E.
  - apply Z.eqb_eq in E. split; [reflexivity | congruence].
  - apply Z.eqb_neq in E. split; [congruence|]. intros _.
    split; [reflexivity|].
    intros pre c post. unfold trace.
    all_paths; intros Htr h Hh; every_cut Htr; cbn in Hh;
      try discriminate Hh.
    all: injection Hh as <-; split; [reflexivity | exact E].
Qed.

(** X22: [launch] makes one [CreateProcessW] request and depends on nothing
    else: the application, the command line "app args", the attributes,
    the inherit flag and the creation flags are passed on; the environment
    and the directory are passed null and the startup information zeroed
    but for its size, whatever [env], [cwd] and [startupInfo] the caller
    gave.  A zero answer is [LaunchFailure]; any other answer hands out
    the ids and handles of the answer as they are. *)
Theorem launch_request
    (CreateProcessW : CreateProcessArgs -> Z * PROCESS_INFORMATION)
    (a : Arch) (app args : string)
    (env : option (list string)) (cwd : option string)
    (inheritHandles : bool) (creationFlags : Z)
    (processAttributes threadAttributes : option Z)
    (startupInfo : option STARTUPINFO) :
  let request :=
    mkCreateProcessArgs app (app ++ " " ++ args)%string
      processAttributes threadAttributes inheritHandles creationFlags
      None None (mkStartupInfo (sizeof_STARTUPINFO a) 0 0 0 0 0) in
  let created := fst (CreateProcessW request) in
  let pi := snd (CreateProcessW request) in
  launch CreateProcessW a app args env cwd inheritHandles creationFlags
    processAttributes threadAttributes startupInfo =
  launch CreateProcessW a app args None None inheritHandles creationFlags
    processAttributes threadAttributes None /\
  (created = 0 ->
     launch CreateProcessW a app args env cwd inheritHandles creationFlags
       processAttributes threadAttributes startupInfo = inl LaunchFailure) /\
  (created <> 0 ->
     launch CreateProcessW a app args env cwd inheritHandles creationFlags
       processAttributes threadAttributes startupInfo =
     inr (mkProcessWithThread
            (mkProcess (dwProcessId pi) (hProcess pi))
            (mkThread (dwThreadId pi) (hThread pi)))).
Proof.
  cbv zeta. unfold launch.
  destruct (CreateProcessW _) as [created pi]. cbn [fst snd].
  split; [reflexivity|].
  destruct (created =? 0) eqn:E.
  - apply Z.eqb_eq in E. split; [reflexivity | congruence].
  - apply Z.eqb_neq in E. split; [congruence | reflexivity].
Qed.

(** ** Concrete runs of the further properties *)

Lemma inject_report_on_success_witness :
  result (run (inject (world calm) target hook true)) = inr tt /\
  exists rep, wprintf calm_report = wprintf rep /\ r_pid rep = 1234.
Proof.
  destruct (inject_report_on_success (world calm) target hook true
              _ _ until_report _ (wprintf calm_report)
              eq_refl eq_refl eq_refl)
    as (_ & Hr & _ & _ & _ & _ & rep & Hc & _ & Hpid & _).
  split; [exact Hr|]. exists rep. split; assumption.
Defined.

Lemma inject_flush_witness :
  result (run (inject (world no_flush) target hook false)) =
    inl CacheFlushFailure.
Proof.
  destruct (inject_flush (world no_flush) target hook false
              _ _ (firstn 5 until_wait) _
              (FlushInstructionCache 300 655360 24)
              eq_refl eq_refl eq_refl)
    as (buf & before & _ & _ & _ & Hfail & _).
  apply Hfail. reflexivity.
Defined.

Lemma inject_helper_failure_witness :
  result (run (inject priority_refused target hook false)) = inl denied /\
  count is_wait (firstn 7 until_wait) = 0%nat.
Proof.
  destruct (inject_helper_failure priority_refused target hook false
              _ _ (firstn 7 until_wait) _
              (Thread_setPriority (mkThread 77 500)
                 THREAD_PRIORITY_TIME_CRITICAL)
              denied eq_refl eq_refl eq_refl)
    as (Hr & Hw & _).
  split; assumption.
Defined.

Lemma inject_buffer_discipline_witness :
  655360 <> 0 /\
  In (VirtualFreeEx 300 655360 0 MEM_RELEASE)
     (skipn 7 until_report ++ [VirtualFreeEx 300 655360 0 MEM_RELEASE]).
Proof.
  exact (proj2 (inject_buffer_discipline (world calm) target hook false
                  _ _ (firstn 6 until_wait) _
                  (createRemoteThread 300 0 0 (kernel32_base + 4096) 655360 0)
                  eq_refl eq_refl) 655360 eq_refl).
Defined.

Lemma inject_header_read_witness :
  result (run (inject unreadable target hook false)) = inl RemoteReadFailure.
Proof.
  destruct (inject_header_read unreadable target hook false
              _ _ (firstn 11 until_report) _
              (ReadProcessMemory 300 1895825408 64) 0 0 (mkDos 0)
              eq_refl eq_refl eq_refl eq_refl)
    as (base & before & _ & _ & _ & _ & _ & Hread).
  apply (proj1 (Hread eq_refl)). left. reflexivity.
Defined.

Lemma inject_release_paired_witness :
  count is_free (trace (run (inject (world calm) target hook false))) =
  count is_alloc (trace (run (inject (world calm) target hook false))).
Proof.
  exact (proj1 (inject_release_paired (world calm) target hook false
                  _ _ eq_refl)).
Defined.

Lemma inject_already_loaded_no_effect_witness :
  count is_alloc
    (trace (run (inject (world loaded_twice) target hook false))) = 0%nat.
Proof.
  refine (proj1 (proj2 (inject_already_loaded_no_effect (world loaded_twice)
                          target hook false _))).
  intros t. cbn. destruct (existsb is_wait t); discriminate.
Defined.

Lemma getProcAddress_throwing_nonnull_witness : kernel32_base + 4096 <> 0.
Proof.
  exact (proj1 (getProcAddress_throwing_nonnull (world calm) own_kernel32
                  "LoadLibraryW" _ _ eq_refl eq_refl)).
Defined.

Lemma getProcAddress_probe_released_witness :
  exists between,
    [GetProcAddress 1879048192 "add"; FreeLibrary 1879048192] =
    between ++ [FreeLibrary 1879048192].
Proof.
  destruct (getProcAddress_probe_released (world calm) remote_hook "add" true
              _ _ [Module_path remote_hook] _
              (LoadLibraryExW "C:\Windows\System32\kernel32.dll"
                 DONT_RESOLVE_DLL_REFERENCES)
              eq_refl eq_refl eq_refl eq_refl)
    as (file & _ & _ & _ & _ & Hloaded).
  destruct Hloaded as (between & Hpost & _); [discriminate|].
  exists between. exact Hpost.
Defined.

Lemma getProcAddress_nothrow_null_witness :
  run (getProcAddress (world export_missing) own_kernel32 "add" false) =
    (inr 0, [GetProcAddress kernel32_base "add"]) /\
  run (getProcAddress (world no_probe) remote_hook "add" false) =
    (inr 0,
     [Module_path remote_hook;
      LoadLibraryExW "C:\Windows\System32\kernel32.dll"
        DONT_RESOLVE_DLL_REFERENCES]).
Proof.
  split.
  - exact (proj1 (getProcAddress_nothrow_null (world export_missing)
                    own_kernel32 "add") eq_refl eq_refl).
  - exact (proj2 (getProcAddress_nothrow_null (world no_probe) remote_hook
                    "add") "C:\Windows\System32\kernel32.dll"
             eq_refl eq_refl eq_refl).
Defined.

Lemma load_result_witness :
  load (world calm) "hook.dll" 0 true false [] =
    (inr (mkModule 1879048192 (current (world calm)) true),
     [LoadLibraryExW "hook.dll" 0]) /\
  load (world no_probe) "hook.dll" 0 true false [] =
    (inr Module_null, [LoadLibraryExW "hook.dll" 0]).
Proof.
  split.
  - refine (proj1 (proj1 (load_result (world calm) "hook.dll" 0 true false [])
                     _)). discriminate.
  - exact (proj1 (proj1 (proj2 (load_result (world no_probe) "hook.dll" 0
                                  true false [])) eq_refl eq_refl)).
Defined.

Lemma ModuleKernel32_new_optional_witness :
  run (ModuleKernel32_new (world old_windows)) =
    (inr (mkKernel32 own_kernel32 (kernel32_base + 4096) 0),
     [GetModuleHandleW "kernel32";
      GetProcAddress kernel32_base "IsWow64Process";
      GetProcAddress kernel32_base "GetNativeSystemInfo"]).
Proof.
  apply (ModuleKernel32_new_optional (world old_windows) kernel32_base
           (kernel32_base + 4096)).
  repeat split; discriminate.
Defined.

Lemma ModuleKernel32_query_callable_witness :
  isWow64Process_ kernel32_facade <> 0.
Proof.
  exact (proj1 (ModuleKernel32_query_callable (world calm) kernel32_facade
                  _ target [] eq_refl)).
Defined.

Lemma ModuleNtdll_new_bound_witness :
  ntResumeProcess_ ntdll_facade <> 0 /\ ntSuspendProcess_ ntdll_facade <> 0.
Proof.
  destruct (ModuleNtdll_new_bound (world calm) ntdll_facade _ eq_refl)
    as (_ & _ & Hr & Hs & _).
  split; assumption.
Defined.

Lemma ModuleNtdll_new_failure_witness :
  exists name code before,
    In name ["NtResumeProcess"; "NtSuspendProcess";
             "NtSetInformationThread"] /\
    ProcAddressResolutionFailure "NtResumeProcess" 127 =
      ProcAddressResolutionFailure name code /\
    [GetModuleHandleW "ntdll"; GetProcAddress ntdll_base "NtResumeProcess";
     GetLastError] =
    before ++ [GetProcAddress ntdll_base name; GetLastError].
Proof.
  destruct (ModuleNtdll_new_failure (world export_missing)
              (ProcAddressResolutionFailure "NtResumeProcess" 127)
              [GetModuleHandleW "ntdll";
               GetProcAddress ntdll_base "NtResumeProcess"; GetLastError]
              eq_refl)
    as [(code & H & _) | (name & code & before & Hin & He & _ & Htr)].
  - discriminate H.
  - exists name, code, before. repeat split; assumption.
Defined.

Lemma ModuleNtdll_calls_witness :
  ntSuspendProcess (world access_denied) ntdll_facade target [] =
    (inl (ex_message "could not suspend process" << e_process target
            << e_api_function "NtSuspendProcess"
            << e_nt_status (-1073741790)),
     [CallNtProc (ntdll_base + 4096) 300]).
Proof.
  exact (proj1 (ModuleNtdll_calls (world access_denied) ntdll_facade _
                  target [] eq_refl)).
Defined.

Lemma suspend_single_call_witness :
  count is_native_call (trace (run (suspend (world calm) target true))) =
    1%nat.
Proof.
  exact (proj1 (proj2 (proj2 (proj2 (suspend_single_call (world calm) target
                                       true _ _ eq_refl)))) eq_refl).
Defined.

Lemma is64bit_only_amd64_witness :
  trace (run (is64bit (world host_arm64) target)) = [MyGetSystemInfo].
Proof.
  refine (proj1 (proj1 (is64bit_only_amd64 (world host_arm64) target
                          _ _ eq_refl) _)).
  discriminate.
Defined.

Lemma LibPathLen_bounds_witness :
  sizeof_wchar_t <= LibPathLen (world calm) hook.
Proof.
  refine (proj1 (proj2 (proj2 (LibPathLen_bounds (world calm) hook))) _).
  reflexivity.
Defined.

Lemma open_then_suspend_witness :
  open OpenProcess_1234 1234 false 2035711 = inr (mkProcess 1234 300) /\
  open OpenProcess_1234 4321 false 2035711 = inl (HandleOpenFailure 4321).
Proof.
  split.
  - refine (proj1 (proj2 (open_then_suspend OpenProcess_1234 1234 false
                            2035711 (world calm) true) _)).
    discriminate.
  - exact (proj1 (open_then_suspend OpenProcess_1234 4321 false 2035711
                    (world calm) true) eq_refl).
Defined.

Lemma launch_request_witness :
  launch CreateProcessW_1234 X64 "C:\target.exe" "--wait"
    (Some ["PATH=C:\"]) (Some "C:\") false 4 None None None =
  inr (mkProcessWithThread (mkProcess 1234 300) (mkThread 77 500)).
Proof.
  refine (proj2 (proj2 (launch_request CreateProcessW_1234 X64
                          "C:\target.exe" "--wait" (Some ["PATH=C:\"])
                          (Some "C:\") false 4 None None None)) _).
  discriminate.
Defined.
